(** * VirtualLight: a shallow embedding of [appdaemon/apps/helper/virtual_light.py]

    The Python class [VirtualLight] is a proxy light.  Its methods talk to an
    injected platform API ([self.api]) and to a list of physical light
    entities, and keep four scalar fields.  The embedding threads the
    instance through a small state/exception/trace monad: every call on the
    API or on a light entity is appended to the trace, field assignments
    update the instance, and a Python exception ends the computation while
    keeping the assignments made so far. *)

From Stdlib Require Import ZArith List String Bool QArith Qround Lia.
Import ListNotations.

Local Open Scope string_scope.
Local Open Scope Z_scope.

(** ** Values exchanged with the platform *)

(** [class VirtualLightState(Enum)] *)
Inductive VirtualLightState : Type :=
| ON
| OFF.

Definition VirtualLightState_eqb (a b : VirtualLightState) : bool :=
  match a, b with
  | ON, ON | OFF, OFF => true
  | _, _ => false
  end.

(** The exceptions the module's own code can raise. *)
Inductive exception : Type :=
| ValueError      (* [VirtualLightState(s)] with [s] not a member value *)
| TypeError       (* arithmetic or comparison on [None], indexing a [str] *)
| AttributeError. (* [self.room.log] while [self.room] is still [None] *)

(** [new["attributes"]]: the three keys the callback indexes.  The callback
    indexes them without a guard, so a state dictionary is taken to carry
    all three; brightness and colour temperature are integers or [None]
    (Python's [None] is [None] here), the colour a list of integers or
    [None]. *)
Record Attributes : Type := mkAttributes {
  brightness : option Z;
  color_temp_kelvin : option Z;
  rgb_color : option (list Z)
}.

(** The [old] / [new] argument of a state callback registered with
    [attribute="all"]: a plain string, or the full state dictionary. *)
Inductive StateValue : Type :=
| Text (s : string)
| Full (state : string) (attributes : Attributes).

(** What [self.api.get_state(ha_id, ...)] answers for one entity. *)
Record EntityState : Type := mkEntityState {
  es_state : string;
  es_brightness : option Z;
  es_color_temp_kelvin : option Z;
  es_min_color_temp_kelvin : option Z;
  es_max_color_temp_kelvin : option Z;
  es_rgb_color : option (list Z)
}.

Definition Platform : Type := string -> EntityState.

(** ** Physical light entities *)

(** A physical light entity always offers [turn_on] and [turn_off]; the
    three richer methods are optional and the callback probes them with
    [hasattr]. *)
Record LightEntity : Type := mkLightEntity {
  entity_name : string;
  has_turn_on_with_brightness_and_temp_kelvin : bool;
  has_turn_on_with_brightness_and_rgb : bool;
  has_turn_on_with_brightness : bool
}.

(** A method call on a light entity, with its arguments. *)
Inductive Command : Type :=
| Turn_on_with_brightness_and_temp_kelvin (b t : option Z)
| Turn_on_with_brightness_and_rgb (b : option Z) (rgb : option (list Z))
| Turn_on_with_brightness (b : option Z)
| Turn_on
| Turn_off.

(** ** Effects *)

(** Keyword arguments of [api.turn_on]: the outer [option] says whether the
    keyword is passed at all, the inner one is the Python value. *)
Record Kwargs : Type := mkKwargs {
  kw_brightness : option (option Z);
  kw_color_temp_kelvin : option (option Z);
  kw_rgb_color : option (option (list Z))
}.

Definition no_kwargs : Kwargs := mkKwargs None None None.

Inductive Message : Type :=
| EventDetected (new : StateValue)
| TurnedOn
| TurnedOnBrightnessNone
| TurnedOff.

Inductive Effect : Type :=
| ApiListenState (ha_id attribute : string)
| ApiLog (msg : Message) (log : string)
| ApiTurnOn (ha_id : string) (kw : Kwargs)
| ApiTurnOff (ha_id : string)
| EntityCall (e : LightEntity) (c : Command).

(** ** The instance

    The fields of [__init__], except the handle [self.api]: calls on it are
    the [Api...] effects of the trace and its answers come from the
    [Platform].  [room] is [None] until the room is attached. *)

Record Room : Type := mkRoom { log : string }.

Record VirtualLight : Type := mkVirtualLight {
  ha_id : string;
  room : option Room;
  light_entities : list LightEntity;
  default_temp_kelvin : Z;
  last_on_brightness : option Z;
  last_on_temp_kelvin : option Z;
  overwrite_next_on_brightness : option Z;
  overwrite_next_on_temp_kelvin : option Z
}.

Definition with_room (r : option Room) (vl : VirtualLight) : VirtualLight :=
  mkVirtualLight (ha_id vl) r (light_entities vl) (default_temp_kelvin vl)
    (last_on_brightness vl) (last_on_temp_kelvin vl)
    (overwrite_next_on_brightness vl) (overwrite_next_on_temp_kelvin vl).

Definition with_last_on_brightness (b : option Z) (vl : VirtualLight) : VirtualLight :=
  mkVirtualLight (ha_id vl) (room vl) (light_entities vl) (default_temp_kelvin vl)
    b (last_on_temp_kelvin vl)
    (overwrite_next_on_brightness vl) (overwrite_next_on_temp_kelvin vl).

Definition with_last_on_temp_kelvin (t : option Z) (vl : VirtualLight) : VirtualLight :=
  mkVirtualLight (ha_id vl) (room vl) (light_entities vl) (default_temp_kelvin vl)
    (last_on_brightness vl) t
    (overwrite_next_on_brightness vl) (overwrite_next_on_temp_kelvin vl).

Definition with_overwrite_next_on_brightness (b : option Z) (vl : VirtualLight) : VirtualLight :=
  mkVirtualLight (ha_id vl) (room vl) (light_entities vl) (default_temp_kelvin vl)
    (last_on_brightness vl) (last_on_temp_kelvin vl)
    b (overwrite_next_on_temp_kelvin vl).

Definition with_overwrite_next_on_temp_kelvin (t : option Z) (vl : VirtualLight) : VirtualLight :=
  mkVirtualLight (ha_id vl) (room vl) (light_entities vl) (default_temp_kelvin vl)
    (last_on_brightness vl) (last_on_temp_kelvin vl)
    (overwrite_next_on_brightness vl) t.

(** ** The method monad *)

Inductive result (A : Type) : Type :=
| Return (a : A)
| Raise (e : exception).

Arguments Return {A} a.
Arguments Raise {A} e.

(** A method body reads the platform, transforms the instance and emits
    effects in order. *)
Definition M (A : Type) : Type :=
  Platform -> VirtualLight -> result A * VirtualLight * list Effect.

Definition ret {A} (a : A) : M A := fun _ vl => (Return a, vl, []).

Definition raise {A} (e : exception) : M A := fun _ vl => (Raise e, vl, []).

Definition bind {A B} (m : M A) (k : A -> M B) : M B :=
  fun p vl =>
    match m p vl with
    | (Return a, vl1, t1) =>
        match k a p vl1 with
        | (r, vl2, t2) => (r, vl2, (t1 ++ t2)%list)
        end
    | (Raise e, vl1, t1) => (Raise e, vl1, t1)
    end.

Definition self : M VirtualLight := fun _ vl => (Return vl, vl, []).

Definition assign (f : VirtualLight -> VirtualLight) : M unit :=
  fun _ vl => (Return tt, f vl, []).

Definition emit (e : Effect) : M unit := fun _ vl => (Return tt, vl, [e]).

Definition api_get_state : M EntityState :=
  fun p vl => (Return (p (ha_id vl)), vl, []).

Declare Scope vl_scope.
Delimit Scope vl_scope with vl.
Notation "x <- m ;; k" := (bind m (fun x => k))
  (at level 61, m at next level, right associativity) : vl_scope.
Notation "m ;; k" := (bind m (fun _ => k))
  (at level 61, right associativity) : vl_scope.
Local Open Scope vl_scope.

Fixpoint for_each {A} (body : A -> M unit) (l : list A) : M unit :=
  match l with
  | [] => ret tt
  | x :: xs => body x ;; for_each body xs
  end.

Definition result_of {A} (o : result A * VirtualLight * list Effect) : result A :=
  fst (fst o).
Definition instance_of {A} (o : result A * VirtualLight * list Effect) : VirtualLight :=
  snd (fst o).
Definition trace_of {A} (o : result A * VirtualLight * list Effect) : list Effect :=
  snd o.

(** ** Python primitives used by the methods *)

Definition is_not_None {A} (v : option A) : bool :=
  match v with Some _ => true | None => false end.

Definition is_None {A} (v : option A) : bool := negb (is_not_None v).

(** [a + d] where [a] may be [None]. *)
Definition py_add (a : option Z) (d : Z) : M Z :=
  match a with
  | Some x => ret (x + d)
  | None => raise TypeError
  end.

(** [a > n] where [a] may be [None]. *)
Definition py_gt (a : option Z) (n : Z) : M bool :=
  match a with
  | Some x => ret (x >? n)
  | None => raise TypeError
  end.

(** [min(a, b)] and [max(a, b)] where [b] may be [None]. *)
Definition py_min (a : Z) (b : option Z) : M Z :=
  match b with
  | Some y => ret (Z.min a y)
  | None => raise TypeError
  end.

Definition py_max (a : Z) (b : option Z) : M Z :=
  match b with
  | Some y => ret (Z.max a y)
  | None => raise TypeError
  end.

(** Short-circuit [and] of two conditions that may raise. *)
Definition and_then (a b : M bool) : M bool :=
  x <- a ;; if x then b else ret false.

(** [VirtualLightState(s)]: lookup of an enum member by value. *)
Definition VirtualLightState_of_value (s : string) : M VirtualLightState :=
  if String.eqb s "on" then ret ON
  else if String.eqb s "off" then ret OFF
  else raise ValueError.

(** [self.api.log(msg, log=self.room.log)] *)
Definition api_log (msg : Message) : M unit :=
  vl <- self ;;
  match room vl with
  | Some r => emit (ApiLog msg (log r))
  | None => raise AttributeError
  end.

(** [self.api.turn_on(self.ha_id, **kw)] *)
Definition api_turn_on (kw : Kwargs) : M unit :=
  vl <- self ;; emit (ApiTurnOn (ha_id vl) kw).

(** [self.api.turn_off(self.ha_id)] *)
Definition api_turn_off : M unit :=
  vl <- self ;; emit (ApiTurnOff (ha_id vl)).

Definition entity_call (e : LightEntity) (c : Command) : M unit :=
  emit (EntityCall e c).

(** ** The class *)

(** [VirtualLight.__init__]: the fresh instance and the registration of the
    callback. *)
Definition init (ha_id : string) (light_entities : list LightEntity)
  : VirtualLight * list Effect :=
  (mkVirtualLight ha_id None light_entities 3000 None None None None,
   [ApiListenState ha_id "all"]).

Section Methods.

(** The two numeric helpers imported from [globals]; their code is not
    part of this module. *)
Variable decimal_to_octet_proportional : Q -> Z.
Variable decimal_to_custom_range_proportional : Q -> option Z -> option Z -> Z.

(** *** Getters *)

Definition get_state : M VirtualLightState :=
  es <- api_get_state ;; VirtualLightState_of_value (es_state es).

Definition get_brightness : M (option Z) :=
  es <- api_get_state ;; ret (es_brightness es).

Definition get_temp_kelvin : M (option Z) :=
  es <- api_get_state ;; ret (es_color_temp_kelvin es).

Definition get_default_temp_kelvin : M Z :=
  vl <- self ;; ret (default_temp_kelvin vl).

Definition get_min_temp_kelvin : M (option Z) :=
  es <- api_get_state ;; ret (es_min_color_temp_kelvin es).

Definition get_max_temp_kelvin : M (option Z) :=
  es <- api_get_state ;; ret (es_max_color_temp_kelvin es).

Definition get_rgb : M (option (list Z)) :=
  es <- api_get_state ;; ret (es_rgb_color es).

(** *** Setters *)

Definition set_overwrite_next_on_brightness (brightness : option Z) : M unit :=
  assign (with_overwrite_next_on_brightness brightness).

Definition set_overwrite_next_on_temp_kelvin (temp_kelvin : option Z) : M unit :=
  assign (with_overwrite_next_on_temp_kelvin temp_kelvin).

(** *** Standard turn on/off methods *)

Definition turn_on_with_brightness_and_temp_kelvin
  (brightness temp_kelvin : option Z) : M unit :=
  api_turn_on (mkKwargs (Some brightness) (Some temp_kelvin) None).

Definition turn_on_with_brightness_and_rgb
  (brightness : option Z) (rgb : option (list Z)) : M unit :=
  api_turn_on (mkKwargs (Some brightness) None (Some rgb)).

Definition turn_on_with_brightness (brightness : option Z) : M unit :=
  vl <- self ;;
  if is_not_None (overwrite_next_on_temp_kelvin vl) then
    turn_on_with_brightness_and_temp_kelvin
      brightness (overwrite_next_on_temp_kelvin vl)
  else
    api_turn_on (mkKwargs (Some brightness) None None).

Definition turn_on : M unit :=
  vl <- self ;;
  if is_not_None (overwrite_next_on_brightness vl)
     && is_not_None (overwrite_next_on_temp_kelvin vl) then
    turn_on_with_brightness_and_temp_kelvin
      (overwrite_next_on_brightness vl) (overwrite_next_on_temp_kelvin vl)
  else if is_not_None (overwrite_next_on_brightness vl) then
    turn_on_with_brightness (overwrite_next_on_brightness vl)
  else
    api_turn_on no_kwargs.

Definition turn_off : M unit := api_turn_off.

Definition toggle : M unit :=
  s <- get_state ;;
  if VirtualLightState_eqb s ON then turn_off else turn_on.

(** *** Special turn on methods *)

Definition turn_on_with_max_illumination : M unit :=
  d <- get_default_temp_kelvin ;;
  turn_on_with_brightness_and_temp_kelvin (Some 255) (Some d).

Definition turn_on_with_last_or_default_temp_kelvin : M unit :=
  vl <- self ;;
  if is_not_None (last_on_temp_kelvin vl) then
    turn_on_with_brightness_and_temp_kelvin
      (last_on_brightness vl) (last_on_temp_kelvin vl)
  else if is_not_None (last_on_brightness vl) then
    turn_on_with_brightness_and_temp_kelvin
      (last_on_brightness vl) (Some (default_temp_kelvin vl))
  else
    turn_on_with_brightness_and_temp_kelvin
      (Some 255) (Some (default_temp_kelvin vl)).

Definition turn_on_with_brightness_delta (brightness_delta : Z) : M unit :=
  b <- get_brightness ;;
  new_brightness <- py_add b brightness_delta ;;
  let new_brightness :=
    if new_brightness <? 0 then 0
    else if new_brightness >? 255 then 255
    else new_brightness in
  turn_on_with_brightness (Some new_brightness).

Definition turn_on_with_brightness_delta_decimal (brightness_delta_decimal : Q)
  : M unit :=
  turn_on_with_brightness_delta
    (decimal_to_octet_proportional brightness_delta_decimal).

Definition turn_on_with_temp_kelvin_delta (temp_kelvin_delta : Z) : M unit :=
  temp_kelvin <- get_temp_kelvin ;;
  vl <- self ;;
  let temp_kelvin :=
    if is_None temp_kelvin then
      (if is_not_None (last_on_temp_kelvin vl) then last_on_temp_kelvin vl
       else Some (default_temp_kelvin vl))
    else temp_kelvin in
  new_temp_kelvin <- py_add temp_kelvin temp_kelvin_delta ;;
  min_temp_kelvin <- get_min_temp_kelvin ;;
  max_temp_kelvin <- get_max_temp_kelvin ;;
  clipped <- py_min new_temp_kelvin max_temp_kelvin ;;
  new_temp_kelvin <- py_max clipped min_temp_kelvin ;;
  current_brightness <- get_brightness ;;
  turn_on_with_brightness_and_temp_kelvin current_brightness (Some new_temp_kelvin).

Definition turn_on_with_temp_kelvin_delta_decimal (temp_kelvin_delta_decimal : Q)
  : M unit :=
  lo <- get_min_temp_kelvin ;;
  hi <- get_max_temp_kelvin ;;
  turn_on_with_temp_kelvin_delta
    (decimal_to_custom_range_proportional temp_kelvin_delta_decimal lo hi).

(** *** Callback method *)

(** Body of the loop over [self.light_entities] in the "on" branch: the
    walk down the priority list of attributes. *)
Definition update_light_entity (a : Attributes) (light_entity : LightEntity)
  : M unit :=
  if is_not_None (color_temp_kelvin a)
     && has_turn_on_with_brightness_and_temp_kelvin light_entity then
    entity_call light_entity
      (Turn_on_with_brightness_and_temp_kelvin (brightness a) (color_temp_kelvin a))
  else if is_not_None (rgb_color a)
          && has_turn_on_with_brightness_and_rgb light_entity then
    entity_call light_entity
      (Turn_on_with_brightness_and_rgb (brightness a) (rgb_color a))
  else if has_turn_on_with_brightness light_entity then
    entity_call light_entity (Turn_on_with_brightness (brightness a))
  else
    c <- and_then (py_gt (brightness a) 247)
           (and_then (ret (is_not_None (color_temp_kelvin a)))
                     (py_gt (color_temp_kelvin a) 2900)) ;;
    if c then entity_call light_entity Turn_on
    else entity_call light_entity Turn_off.

(** [callback(self, entity, attribute, old, new, kwargs)]; the unused
    [kwargs] dictionary is left out.  The two [self.room.log] reads raise
    [AttributeError] while no room is attached. *)
Definition callback (entity attribute : string) (old new : StateValue) : M unit :=
  match new with
  | Text s =>
      if String.eqb s EmptyString then ret tt
      else
        api_log (EventDetected new) ;;
        raise TypeError                     (* [new["state"]] on a [str] *)
  | Full state a =>
      api_log (EventDetected new) ;;
      state <- VirtualLightState_of_value state ;;
      if VirtualLightState_eqb state ON && is_not_None (brightness a) then
        api_log TurnedOn ;;
        assign (with_last_on_brightness (brightness a)) ;;
        assign (with_last_on_temp_kelvin (color_temp_kelvin a)) ;;
        vl <- self ;;
        for_each (update_light_entity a) (light_entities vl) ;;
        assign (with_overwrite_next_on_brightness None) ;;
        assign (with_overwrite_next_on_temp_kelvin None)
      else if VirtualLightState_eqb state ON && is_None (brightness a) then
        api_log TurnedOnBrightnessNone ;;
        vl <- self ;;
        turn_on_with_brightness_and_temp_kelvin
          (Some (decimal_to_octet_proportional (1 # 2)))
          (Some (default_temp_kelvin vl))
      else if VirtualLightState_eqb state OFF then
        api_log TurnedOff ;;
        vl <- self ;;
        for_each (fun light_entity => entity_call light_entity Turn_off)
                 (light_entities vl)
      else ret tt
  end.

End Methods.

(** ** Operations and reachable instances *)

(** Everything that can happen to an instance after construction: a call of
    one of its methods, an invocation of the registered callback, or the
    assignment [virtual_light.room = room] made once the room exists. *)
Inductive Operation : Type :=
| Get_state
| Get_brightness
| Get_temp_kelvin
| Get_default_temp_kelvin
| Get_min_temp_kelvin
| Get_max_temp_kelvin
| Get_rgb
| Set_overwrite_next_on_brightness (brightness : option Z)
| Set_overwrite_next_on_temp_kelvin (temp_kelvin : option Z)
| Op_turn_on
| Op_turn_on_with_brightness (brightness : option Z)
| Op_turn_on_with_brightness_and_temp_kelvin (brightness temp_kelvin : option Z)
| Op_turn_on_with_brightness_and_rgb (brightness : option Z) (rgb : option (list Z))
| Op_turn_off
| Op_toggle
| Op_turn_on_with_max_illumination
| Op_turn_on_with_last_or_default_temp_kelvin
| Op_turn_on_with_brightness_delta (brightness_delta : Z)
| Op_turn_on_with_brightness_delta_decimal (brightness_delta_decimal : Q)
| Op_turn_on_with_temp_kelvin_delta (temp_kelvin_delta : Z)
| Op_turn_on_with_temp_kelvin_delta_decimal (temp_kelvin_delta_decimal : Q)
| Op_callback (entity attribute : string) (old new : StateValue)
| Attach_room (r : Room).

Section Reachability.

Variable decimal_to_octet_proportional : Q -> Z.
Variable decimal_to_custom_range_proportional : Q -> option Z -> option Z -> Z.

Definition run (op : Operation) : M unit :=
  match op with
  | Get_state => get_state ;; ret tt
  | Get_brightness => get_brightness ;; ret tt
  | Get_temp_kelvin => get_temp_kelvin ;; ret tt
  | Get_default_temp_kelvin => get_default_temp_kelvin ;; ret tt
  | Get_min_temp_kelvin => get_min_temp_kelvin ;; ret tt
  | Get_max_temp_kelvin => get_max_temp_kelvin ;; ret tt
  | Get_rgb => get_rgb ;; ret tt
  | Set_overwrite_next_on_brightness b => set_overwrite_next_on_brightness b
  | Set_overwrite_next_on_temp_kelvin t => set_overwrite_next_on_temp_kelvin t
  | Op_turn_on => turn_on
  | Op_turn_on_with_brightness b => turn_on_with_brightness b
  | Op_turn_on_with_brightness_and_temp_kelvin b t =>
      turn_on_with_brightness_and_temp_kelvin b t
  | Op_turn_on_with_brightness_and_rgb b rgb => turn_on_with_brightness_and_rgb b rgb
  | Op_turn_off => turn_off
  | Op_toggle => toggle
  | Op_turn_on_with_max_illumination => turn_on_with_max_illumination
  | Op_turn_on_with_last_or_default_temp_kelvin =>
      turn_on_with_last_or_default_temp_kelvin
  | Op_turn_on_with_brightness_delta d => turn_on_with_brightness_delta d
  | Op_turn_on_with_brightness_delta_decimal q =>
      turn_on_with_brightness_delta_decimal decimal_to_octet_proportional q
  | Op_turn_on_with_temp_kelvin_delta d => turn_on_with_temp_kelvin_delta d
  | Op_turn_on_with_temp_kelvin_delta_decimal q =>
      turn_on_with_temp_kelvin_delta_decimal decimal_to_custom_range_proportional q
  | Op_callback entity attribute old new =>
      callback decimal_to_octet_proportional entity attribute old new
  | Attach_room r => assign (with_room (Some r))
  end.

(** The instances reachable from construction.  A step keeps the instance
    an operation leaves behind whether it returned or raised; the platform
    may answer differently at every step. *)
Inductive reachable : VirtualLight -> Prop :=
| reachable_init (ha_id : string) (light_entities : list LightEntity) :
    reachable (fst (init ha_id light_entities))
| reachable_step (vl : VirtualLight) (op : Operation) (p : Platform) :
    reachable vl -> reachable (instance_of (run op p vl)).

End Reachability.

(** ** Reading a trace *)

(** The calls made on light entities, in order. *)
Fixpoint entity_calls (t : list Effect) : list (LightEntity * Command) :=
  match t with
  | [] => []
  | EntityCall e c :: t' => (e, c) :: entity_calls t'
  | _ :: t' => entity_calls t'
  end.

(** The keyword arguments of the [api.turn_on] calls, in order. *)
Fixpoint api_turn_ons (t : list Effect) : list (string * Kwargs) :=
  match t with
  | [] => []
  | ApiTurnOn h kw :: t' => (h, kw) :: api_turn_ons t'
  | _ :: t' => api_turn_ons t'
  end.

(** The effect of one call on a light entity. *)
Definition call_effect (ec : LightEntity * Command) : Effect :=
  EntityCall (fst ec) (snd ec).

(** The instance an "on" event with attributes [a] leaves behind when the
    callback runs to its end: the four assignments of that branch. *)
Definition after_on (a : Attributes) (vl : VirtualLight) : VirtualLight :=
  with_overwrite_next_on_temp_kelvin None
    (with_overwrite_next_on_brightness None
       (with_last_on_temp_kelvin (color_temp_kelvin a)
          (with_last_on_brightness (brightness a) vl))).

(** ** The priority cascade, as specified

    The command one light entity is to receive for an "on" event with
    attributes [a], written rule by rule; each rule applies only when the
    rules before it do not. *)

Definition wants_temp_kelvin (a : Attributes) (e : LightEntity) : Prop :=
  color_temp_kelvin a <> None /\ has_turn_on_with_brightness_and_temp_kelvin e = true.

Definition wants_rgb (a : Attributes) (e : LightEntity) : Prop :=
  rgb_color a <> None /\ has_turn_on_with_brightness_and_rgb e = true.

Definition wants_brightness (e : LightEntity) : Prop :=
  has_turn_on_with_brightness e = true.

Definition bright_and_warm_enough (a : Attributes) : Prop :=
  (exists b, brightness a = Some b /\ b > 247) /\
  (exists t, color_temp_kelvin a = Some t /\ t > 2900).

Inductive priority_cascade (a : Attributes) (e : LightEntity) : Command -> Prop :=
| cascade_temp_kelvin :
    wants_temp_kelvin a e ->
    priority_cascade a e
      (Turn_on_with_brightness_and_temp_kelvin (brightness a) (color_temp_kelvin a))
| cascade_rgb :
    ~ wants_temp_kelvin a e ->
    wants_rgb a e ->
    priority_cascade a e (Turn_on_with_brightness_and_rgb (brightness a) (rgb_color a))
| cascade_brightness :
    ~ wants_temp_kelvin a e ->
    ~ wants_rgb a e ->
    wants_brightness e ->
    priority_cascade a e (Turn_on_with_brightness (brightness a))
| cascade_plain_on :
    ~ wants_temp_kelvin a e ->
    ~ wants_rgb a e ->
    ~ wants_brightness e ->
    bright_and_warm_enough a ->
    priority_cascade a e Turn_on
| cascade_off :
    ~ wants_temp_kelvin a e ->
    ~ wants_rgb a e ->
    ~ wants_brightness e ->
    ~ bright_and_warm_enough a ->
    priority_cascade a e Turn_off.

(** Each light entity of [l] received the one command of [cs] at its
    position, and that command is the one the cascade prescribes. *)
Definition one_command_each (a : Attributes) (l : list LightEntity)
  (cs : list (LightEntity * Command)) : Prop :=
  Forall2 (fun e ec => fst ec = e /\ priority_cascade a e (snd ec)) l cs.

(** ** The claim about [turn_on] and the overwrite values, as worded

    [turn_on] issues one [api.turn_on] that carries every overwrite value
    currently stored. *)
Definition turn_on_carries_overwrites (p : Platform) (vl : VirtualLight) : Prop :=
  exists kw,
    turn_on p vl = (Return tt, vl, [ApiTurnOn (ha_id vl) kw]) /\
    (forall b, overwrite_next_on_brightness vl = Some b ->
               kw_brightness kw = Some (Some b)) /\
    (forall t, overwrite_next_on_temp_kelvin vl = Some t ->
               kw_color_temp_kelvin kw = Some (Some t)).

(** An event that takes the first branch of the callback. *)
Definition on_with_brightness (new : StateValue) : Prop :=
  exists a b, new = Full "on" a /\ brightness a = Some b.

(** ** A worked configuration

    One virtual light in front of four physical entities of decreasing
    capability.  The two helpers stand in for the ones of [globals], whose
    code this module only imports. *)

Definition sample_decimal_to_octet (x : Q) : Z := Qfloor (x * 255)%Q.

Definition sample_decimal_to_custom_range (x : Q) (lo hi : option Z) : Z :=
  match lo, hi with
  | Some l, Some h => Qfloor (x * inject_Z (h - l))%Q
  | _, _ => 0
  end.

Definition ceiling_bulb : LightEntity := mkLightEntity "light.ceiling" true true true.
Definition led_strip : LightEntity := mkLightEntity "light.strip" false true true.
Definition dimmer : LightEntity := mkLightEntity "light.dimmer" false false true.
Definition relay : LightEntity := mkLightEntity "switch.relay" false false false.

Definition living_room : Room := mkRoom "living_room_log".

Definition fresh_light : VirtualLight :=
  fst (init "light.virtual_living_room" [ceiling_bulb; led_strip; dimmer; relay]).

Definition installed_light : VirtualLight :=
  with_room (Some living_room) fresh_light.

Definition lit : EntityState :=
  mkEntityState "on" (Some 200) (Some 2700) (Some 2000) (Some 6500) None.

Definition lit_platform : Platform := fun _ => lit.

Definition warm_full : Attributes := mkAttributes (Some 255) (Some 3000) None.

Definition red_dim : Attributes := mkAttributes (Some 40) None (Some [255; 0; 0]).

Definition no_brightness : Attributes := mkAttributes None None None.

(** The installed light after it has seen the "on" event [warm_full]. *)
Definition remembering_light : VirtualLight := after_on warm_full installed_light.

(** The installed light with only a colour temperature stored for the next
    turn-on, and with both values stored. *)
Definition light_with_temp_overwrite : VirtualLight :=
  with_overwrite_next_on_temp_kelvin (Some 2700) installed_light.

Definition light_with_both_overwrites : VirtualLight :=
  with_overwrite_next_on_brightness (Some 120) light_with_temp_overwrite.

(** ** Further readers and classifications *)

(** The [api.turn_off] calls of a trace, in order. *)
Fixpoint api_turn_offs (t : list Effect) : list string :=
  match t with
  | [] => []
  | ApiTurnOff h :: t' => h :: api_turn_offs t'
  | _ :: t' => api_turn_offs t'
  end.

(** Keyword arguments the platform can make sense of: a colour temperature
    or a colour only next to a brightness keyword, and never both. *)
Definition kwargs_ok (kw : Kwargs) : bool :=
  (is_not_None (kw_brightness kw)
   || (is_None (kw_color_temp_kelvin kw) && is_None (kw_rgb_color kw)))
  && (is_None (kw_color_temp_kelvin kw) || is_None (kw_rgb_color kw)).

(** The operations that contain an assignment to a field of the instance:
    the two setters, the callback and the attachment of the room. *)
Definition assigns (op : Operation) : bool :=
  match op with
  | Set_overwrite_next_on_brightness _
  | Set_overwrite_next_on_temp_kelvin _
  | Op_callback _ _ _ _
  | Attach_room _ => true
  | _ => false
  end.

(** More platform answers for the worked configuration: the light off, a
    light that reports no temperature range, one that reports an inverted
    range, and an entity the platform cannot reach. *)
Definition unlit : EntityState :=
  mkEntityState "off" None None (Some 2000) (Some 6500) None.

Definition unlit_platform : Platform := fun _ => unlit.

Definition rangeless : EntityState :=
  mkEntityState "on" (Some 200) (Some 2700) None None None.

Definition rangeless_platform : Platform := fun _ => rangeless.

Definition inverted : EntityState :=
  mkEntityState "on" (Some 200) (Some 2700) (Some 6500) (Some 2000) None.

Definition inverted_platform : Platform := fun _ => inverted.

Definition unavailable : EntityState :=
  mkEntityState "unavailable" None None None None None.

Definition unavailable_platform : Platform := fun _ => unavailable.

(** ** Proof automation *)

(** Open the record of an instance whose [room] is known. *)
Ltac open_instance vl Hroom :=
  destruct vl as [h ro les d lb lt ob ot]; simpl in Hroom; subst ro.

Ltac step_callback :=
  unfold callback, bind, api_log, self, VirtualLightState_of_value; simpl.

(** Case analysis on every scrutinee left in the goal. *)
Ltac split_cases :=
  repeat match goal with
         | |- context [match ?x with _ => _ end] =>
             lazymatch x with
             | context [match _ with _ => _ end] => fail
             | _ => destruct x eqn:?; cbv beta iota zeta
             end
         end.

Ltac step_method :=
  cbv beta iota zeta delta
    [turn_on turn_on_with_brightness turn_on_with_brightness_and_temp_kelvin
     turn_on_with_brightness_and_rgb turn_off toggle
     turn_on_with_max_illumination turn_on_with_last_or_default_temp_kelvin
     turn_on_with_brightness_delta_decimal turn_on_with_brightness_delta
     turn_on_with_temp_kelvin_delta_decimal turn_on_with_temp_kelvin_delta
     get_state get_brightness get_temp_kelvin get_default_temp_kelvin
     get_min_temp_kelvin get_max_temp_kelvin get_rgb
     set_overwrite_next_on_brightness set_overwrite_next_on_temp_kelvin
     VirtualLightState_of_value api_turn_on api_turn_off api_get_state
     py_add py_min py_max bind self emit assign ret raise
     instance_of result_of trace_of fst snd].

(** * Properties *)

(** ** Generic facts about the monad and traces *)

Lemma entity_calls_app (t1 t2 : list Effect) :
  entity_calls (t1 ++ t2) = (entity_calls t1 ++ entity_calls t2)%list.
Proof.
  induction t1 as [|x t1 IH]; simpl; [reflexivity|].
  destruct x; simpl; rewrite ?IH; reflexivity.
Qed.

Lemma api_turn_ons_app (t1 t2 : list Effect) :
  api_turn_ons (t1 ++ t2) = (api_turn_ons t1 ++ api_turn_ons t2)%list.
Proof.
  induction t1 as [|x t1 IH]; simpl; [reflexivity|].
  destruct x; simpl; rewrite ?IH; reflexivity.
Qed.

Lemma entity_calls_call_effects (cs : list (LightEntity * Command)) :
  entity_calls (map call_effect cs) = cs.
Proof.
  induction cs as [|[e c] cs IH]; simpl; [reflexivity|]. now rewrite IH.
Qed.

Lemma api_turn_ons_call_effects (cs : list (LightEntity * Command)) :
  api_turn_ons (map call_effect cs) = [].
Proof.
  induction cs as [|[e c] cs IH]; simpl; [reflexivity|]. exact IH.
Qed.

(** A loop whose body always returns, leaves the instance alone and emits
    [f x] does the same for the whole list. *)
Lemma for_each_emits {A} (body : A -> M unit) (f : A -> list Effect)
      (p : Platform) (vl : VirtualLight) (l : list A) :
  (forall x, In x l -> body x p vl = (Return tt, vl, f x)) ->
  for_each body l p vl = (Return tt, vl, flat_map f l).
Proof.
  induction l as [|x l IH]; intros Hbody; simpl.
  - reflexivity.
  - unfold bind. rewrite (Hbody x (or_introl eq_refl)).
    rewrite IH by (intros y Hy; apply Hbody; now right).
    reflexivity.
Qed.

(** ** The loop body of the "on" branch *)

Lemma update_light_entity_spec (a : Attributes) (e : LightEntity) (b : Z)
      (p : Platform) (vl : VirtualLight) :
  brightness a = Some b ->
  exists c,
    update_light_entity a e p vl = (Return tt, vl, [EntityCall e c]) /\
    priority_cascade a e c.
Proof.
  intros Hb. unfold update_light_entity.
  destruct (is_not_None (color_temp_kelvin a)
            && has_turn_on_with_brightness_and_temp_kelvin e) eqn:E1.
  { apply andb_true_iff in E1 as [Ht Hcap].
    eexists; split; [reflexivity|].
    apply cascade_temp_kelvin. split; [|exact Hcap].
    destruct (color_temp_kelvin a); [discriminate|discriminate Ht]. }
  assert (N1 : ~ wants_temp_kelvin a e).
  { intros [Ht Hcap]. rewrite Hcap, andb_true_r in E1.
    destruct (color_temp_kelvin a); [discriminate E1|now apply Ht]. }
  destruct (is_not_None (rgb_color a)
            && has_turn_on_with_brightness_and_rgb e) eqn:E2.
  { apply andb_true_iff in E2 as [Hr Hcap].
    eexists; split; [reflexivity|].
    apply cascade_rgb; [exact N1|]. split; [|exact Hcap].
    destruct (rgb_color a); [discriminate|discriminate Hr]. }
  assert (N2 : ~ wants_rgb a e).
  { intros [Hr Hcap]. rewrite Hcap, andb_true_r in E2.
    destruct (rgb_color a); [discriminate E2|now apply Hr]. }
  destruct (has_turn_on_with_brightness e) eqn:E3.
  { eexists; split; [reflexivity|].
    apply cascade_brightness; [exact N1|exact N2|exact E3]. }
  assert (N3 : ~ wants_brightness e).
  { unfold wants_brightness. rewrite E3. discriminate. }
  rewrite Hb. unfold and_then, bind, py_gt, ret, entity_call, emit. simpl.
  destruct (b >? 247) eqn:Eb; simpl.
  - destruct (color_temp_kelvin a) as [t|] eqn:Et; simpl.
    + destruct (t >? 2900) eqn:Ek; simpl.
      * eexists; split; [reflexivity|].
        apply cascade_plain_on; [exact N1|exact N2|exact N3|].
        split.
        -- exists b. split; [exact Hb|]. apply Z.gtb_lt in Eb. lia.
        -- exists t. split; [exact Et|]. apply Z.gtb_lt in Ek. lia.
      * eexists; split; [reflexivity|].
        apply cascade_off; [exact N1|exact N2|exact N3|].
        intros [_ [t' [Ht' Hgt]]]. rewrite Et in Ht'. injection Ht' as <-.
        assert (2900 < t) by lia. apply Z.gtb_lt in H. congruence.
    + eexists; split; [reflexivity|].
      apply cascade_off; [exact N1|exact N2|exact N3|].
      intros [_ [t' [Ht' _]]]. rewrite Et in Ht'. discriminate.
  - eexists; split; [reflexivity|].
    apply cascade_off; [exact N1|exact N2|exact N3|].
    intros [[b' [Hb' Hgt]] _]. rewrite Hb in Hb'. injection Hb' as <-.
    assert (247 < b) by lia. apply Z.gtb_lt in H. congruence.
Qed.

Lemma for_each_update_light_entity (a : Attributes) (b : Z) (p : Platform)
      (vl : VirtualLight) (l : list LightEntity) :
  brightness a = Some b ->
  exists cs,
    for_each (update_light_entity a) l p vl = (Return tt, vl, map call_effect cs) /\
    one_command_each a l cs.
Proof.
  intros Hb. induction l as [|e l [cs [Hrun Hcs]]].
  - exists []. split; [reflexivity|constructor].
  - destruct (update_light_entity_spec a e b p vl Hb) as [c [Hc Hspec]].
    exists ((e, c) :: cs). split.
    + simpl. unfold bind. rewrite Hc, Hrun. reflexivity.
    + constructor; [split; [reflexivity|exact Hspec]|exact Hcs].
Qed.

(** ** The callback, branch by branch *)

Section CallbackBranches.

Variable decimal_to_octet_proportional : Q -> Z.

Lemma callback_on (vl : VirtualLight) (r : Room) (entity attribute : string)
      (old : StateValue) (a : Attributes) (b : Z) (p : Platform) :
  room vl = Some r ->
  brightness a = Some b ->
  exists cs,
    callback decimal_to_octet_proportional entity attribute old (Full "on" a) p vl =
      (Return tt, after_on a vl,
       ApiLog (EventDetected (Full "on" a)) (log r)
         :: ApiLog TurnedOn (log r) :: map call_effect cs) /\
    one_command_each a (light_entities vl) cs.
Proof.
  intros Hroom Hb.
  destruct (for_each_update_light_entity a b p
              (with_last_on_temp_kelvin (color_temp_kelvin a)
                 (with_last_on_brightness (brightness a) vl))
              (light_entities vl) Hb) as [cs [Hrun Hcs]].
  exists cs. split; [|exact Hcs].
  destruct vl as [h ro les d lb lt ob ot]. simpl in Hroom. subst ro.
  unfold after_on. rewrite Hb in *.
  unfold callback, bind, api_log, self. simpl in *.
  rewrite Hb. simpl. rewrite Hrun. simpl. rewrite ?app_nil_r. reflexivity.
Qed.

Lemma callback_on_brightness_None (vl : VirtualLight) (r : Room)
      (entity attribute : string) (old : StateValue) (a : Attributes)
      (p : Platform) :
  room vl = Some r ->
  brightness a = None ->
  callback decimal_to_octet_proportional entity attribute old (Full "on" a) p vl =
    (Return tt, vl,
     [ApiLog (EventDetected (Full "on" a)) (log r);
      ApiLog TurnedOnBrightnessNone (log r);
      ApiTurnOn (ha_id vl)
        (mkKwargs (Some (Some (decimal_to_octet_proportional (1 # 2))))
                  (Some (Some (default_temp_kelvin vl))) None)]).
Proof.
  intros Hroom Hb. open_instance vl Hroom.
  step_callback. rewrite Hb. reflexivity.
Qed.

Lemma callback_off (vl : VirtualLight) (r : Room) (entity attribute : string)
      (old : StateValue) (a : Attributes) (p : Platform) :
  room vl = Some r ->
  callback decimal_to_octet_proportional entity attribute old (Full "off" a) p vl =
    (Return tt, vl,
     ApiLog (EventDetected (Full "off" a)) (log r)
       :: ApiLog TurnedOff (log r)
       :: map (fun e => EntityCall e Turn_off) (light_entities vl)).
Proof.
  intros Hroom. open_instance vl Hroom.
  step_callback.
  rewrite (for_each_emits _ (fun e => [EntityCall e Turn_off]))
    by reflexivity.
  reflexivity.
Qed.

Lemma callback_invalid_state (vl : VirtualLight) (r : Room)
      (entity attribute : string) (old : StateValue) (state : string)
      (a : Attributes) (p : Platform) :
  room vl = Some r ->
  state <> "on" ->
  state <> "off" ->
  callback decimal_to_octet_proportional entity attribute old (Full state a) p vl =
    (Raise ValueError, vl, [ApiLog (EventDetected (Full state a)) (log r)]).
Proof.
  intros Hroom Hon Hoff.
  apply String.eqb_neq in Hon, Hoff. open_instance vl Hroom.
  step_callback. rewrite Hon, Hoff. reflexivity.
Qed.

Lemma callback_empty (vl : VirtualLight) (entity attribute : string)
      (old : StateValue) (p : Platform) :
  callback decimal_to_octet_proportional entity attribute old (Text EmptyString) p vl =
    (Return tt, vl, []).
Proof. reflexivity. Qed.

Lemma callback_text (vl : VirtualLight) (r : Room) (entity attribute s : string)
      (old : StateValue) (p : Platform) :
  room vl = Some r ->
  s <> EmptyString ->
  callback decimal_to_octet_proportional entity attribute old (Text s) p vl =
    (Raise TypeError, vl, [ApiLog (EventDetected (Text s)) (log r)]).
Proof.
  intros Hroom Hs. apply String.eqb_neq in Hs. open_instance vl Hroom.
  unfold callback. rewrite Hs. reflexivity.
Qed.

Lemma callback_without_room (vl : VirtualLight) (entity attribute : string)
      (old new : StateValue) (p : Platform) :
  room vl = None ->
  new <> Text EmptyString ->
  callback decimal_to_octet_proportional entity attribute old new p vl =
    (Raise AttributeError, vl, []).
Proof.
  intros Hroom Hnew. open_instance vl Hroom.
  destruct new as [s|state a].
  - destruct (String.eqb_spec s EmptyString) as [->|Hs]; [now elim Hnew|].
    apply String.eqb_neq in Hs.
    unfold callback. rewrite Hs. reflexivity.
  - reflexivity.
Qed.

(** Whatever the event, the callback either leaves the instance as it was
    or performs the four assignments of the "on" branch. *)
Lemma callback_instance (vl : VirtualLight) (entity attribute : string)
      (old new : StateValue) (p : Platform) :
  instance_of (callback decimal_to_octet_proportional entity attribute old new p vl) = vl
  \/ exists a b r,
       new = Full "on" a /\ brightness a = Some b /\ room vl = Some r /\
       instance_of (callback decimal_to_octet_proportional entity attribute old new p vl)
       = after_on a vl.
Proof.
  destruct (room vl) as [r|] eqn:Hroom.
  - destruct new as [s|state a].
    + left. destruct (String.eqb_spec s EmptyString) as [->|Hs].
      * now rewrite callback_empty.
      * now rewrite (callback_text vl r) by assumption.
    + destruct (String.eqb_spec state "on") as [->|Hon].
      * destruct (brightness a) as [b|] eqn:Hb.
        -- right. exists a, b, r.
           destruct (callback_on vl r entity attribute old a b p Hroom Hb)
             as [cs [Hrun _]].
           rewrite Hrun. repeat split; assumption.
        -- left. now rewrite (callback_on_brightness_None vl r) by assumption.
      * left. destruct (String.eqb_spec state "off") as [->|Hoff].
        -- now rewrite (callback_off vl r) by assumption.
        -- now rewrite (callback_invalid_state vl r) by assumption.
  - left. destruct new as [s|state a].
    + destruct (String.eqb_spec s EmptyString) as [->|Hs].
      * now rewrite callback_empty.
      * rewrite callback_without_room; [reflexivity|assumption|congruence].
    + rewrite callback_without_room; [reflexivity|assumption|discriminate].
Qed.

End CallbackBranches.

(** ** What an operation can do to the instance *)

Section Steps.

Variable decimal_to_octet_proportional : Q -> Z.
Variable decimal_to_custom_range_proportional : Q -> option Z -> option Z -> Z.

(** Only the two setters, the attachment of the room and the "on" branch of
    the callback assign to the instance. *)
Lemma run_instance (op : Operation) (p : Platform) (vl : VirtualLight) :
  let vl' :=
    instance_of
      (run decimal_to_octet_proportional decimal_to_custom_range_proportional op p vl) in
  vl' = vl
  \/ (exists b, vl' = with_overwrite_next_on_brightness b vl)
  \/ (exists t, vl' = with_overwrite_next_on_temp_kelvin t vl)
  \/ (exists r, vl' = with_room (Some r) vl)
  \/ (exists a b, brightness a = Some b /\ vl' = after_on a vl).
Proof.
  destruct op as [ | | | | | | | ob | ot | | b | b t | b rgb | | | | | d | q | d | q
                  | entity attribute old new | r ];
    cbv zeta; unfold run;
    try (left; step_method; split_cases; reflexivity).
  - right; left. eexists; reflexivity.
  - right; right; left. eexists; reflexivity.
  - destruct (callback_instance decimal_to_octet_proportional vl
                entity attribute old new p) as [H|[a [b [r [_ [Hb [_ H]]]]]]].
    + now left.
    + do 4 right. now exists a, b.
  - do 3 right; left. eexists; reflexivity.
Qed.

Lemma reachable_default_temp_kelvin (vl : VirtualLight) :
  reachable decimal_to_octet_proportional decimal_to_custom_range_proportional vl ->
  default_temp_kelvin vl = 3000.
Proof.
  induction 1 as [h les|vl op p _ IH]; [reflexivity|].
  destruct (run_instance op p vl)
    as [H|[[b H]|[[t H]|[[r H]|[a [b [_ H]]]]]]]; rewrite H; exact IH.
Qed.

(** A remembered temperature always comes with a remembered brightness. *)
Lemma reachable_last_on (vl : VirtualLight) :
  reachable decimal_to_octet_proportional decimal_to_custom_range_proportional vl ->
  last_on_temp_kelvin vl <> None -> last_on_brightness vl <> None.
Proof.
  induction 1 as [h les|vl op p _ IH]; [intros H; now elim H|].
  destruct (run_instance op p vl)
    as [H|[[b H]|[[t H]|[[r H]|[a [b [Hb H]]]]]]]; rewrite H; try exact IH.
  intros _. simpl. rewrite Hb. discriminate.
Qed.

End Steps.

(** ** The worked configuration is reachable *)

Lemma installed_light_reachable :
  reachable sample_decimal_to_octet sample_decimal_to_custom_range installed_light.
Proof.
  exact (reachable_step sample_decimal_to_octet sample_decimal_to_custom_range
           fresh_light (Attach_room living_room) lit_platform
           (reachable_init _ _ "light.virtual_living_room"
              [ceiling_bulb; led_strip; dimmer; relay])).
Qed.

Example installed_light_warm_full :
  entity_calls
    (trace_of (callback sample_decimal_to_octet "light.virtual_living_room" "all"
                 (Text EmptyString) (Full "on" warm_full) lit_platform installed_light))
  = [(ceiling_bulb, Turn_on_with_brightness_and_temp_kelvin (Some 255) (Some 3000));
     (led_strip, Turn_on_with_brightness (Some 255));
     (dimmer, Turn_on_with_brightness (Some 255));
     (relay, Turn_on)].
Proof. reflexivity. Qed.

Example installed_light_red_dim :
  entity_calls
    (trace_of (callback sample_decimal_to_octet "light.virtual_living_room" "all"
                 (Text EmptyString) (Full "on" red_dim) lit_platform installed_light))
  = [(ceiling_bulb, Turn_on_with_brightness_and_rgb (Some 40) (Some [255; 0; 0]));
     (led_strip, Turn_on_with_brightness_and_rgb (Some 40) (Some [255; 0; 0]));
     (dimmer, Turn_on_with_brightness (Some 40));
     (relay, Turn_off)].
Proof. reflexivity. Qed.

(** * The callback *)

Section CallbackProperties.

Variable decimal_to_octet_proportional : Q -> Z.

(** C1.  For an event with state "on" and a brightness that is not [None],
    received once the room is attached, the callback returns and has sent
    exactly one command to each entity of [light_entities], in order, each
    chosen by the priority cascade: brightness and colour temperature, else
    brightness and RGB, else brightness alone, else a plain [turn_on] when
    brightness exceeds 247 and the colour temperature exceeds 2900, else
    [turn_off]. *)
Theorem callback_on_priority_cascade (vl : VirtualLight) (r : Room)
        (entity attribute : string) (old : StateValue) (a : Attributes) (b : Z)
        (p : Platform) :
  room vl = Some r ->
  brightness a = Some b ->
  let out :=
    callback decimal_to_octet_proportional entity attribute old (Full "on" a) p vl in
  result_of out = Return tt /\
  one_command_each a (light_entities vl) (entity_calls (trace_of out)) /\
  api_turn_ons (trace_of out) = [].
Proof.
  intros Hroom Hb out.
  destruct (callback_on decimal_to_octet_proportional vl r entity attribute
              old a b p Hroom Hb) as [cs [Hrun Hcs]].
  subst out. rewrite Hrun. unfold result_of, trace_of. simpl.
  rewrite entity_calls_call_effects, api_turn_ons_call_effects.
  repeat split. exact Hcs.
Qed.

(** C3.  After the callback has processed an event with state "on" and a
    brightness that is not [None], both overwrite fields are [None]; and
    whatever the event and the instance, the callback leaves [ha_id],
    [room], [light_entities] and [default_temp_kelvin] as they were. *)
Theorem callback_on_clears_overwrites (vl : VirtualLight) (r : Room)
        (entity attribute : string) (old : StateValue) (a : Attributes) (b : Z)
        (p : Platform) (vl0 : VirtualLight) (new : StateValue) :
  room vl = Some r ->
  brightness a = Some b ->
  let vl' :=
    instance_of
      (callback decimal_to_octet_proportional entity attribute old (Full "on" a) p vl) in
  let vl0' :=
    instance_of
      (callback decimal_to_octet_proportional entity attribute old new p vl0) in
  (overwrite_next_on_brightness vl' = None /\
   overwrite_next_on_temp_kelvin vl' = None) /\
  (ha_id vl0' = ha_id vl0 /\
   room vl0' = room vl0 /\
   light_entities vl0' = light_entities vl0 /\
   default_temp_kelvin vl0' = default_temp_kelvin vl0).
Proof.
  intros Hroom Hb vl' vl0'. split.
  - destruct (callback_on decimal_to_octet_proportional vl r entity attribute
                old a b p Hroom Hb) as [cs [Hrun _]].
    subst vl'. rewrite Hrun. split; reflexivity.
  - subst vl0'.
    destruct (callback_instance decimal_to_octet_proportional vl0
                entity attribute old new p) as [H|[a' [b' [r' [_ [_ [_ H]]]]]]];
      rewrite H; repeat split.
Qed.

(** C6.  For an event with state "off", received once the room is attached,
    the callback returns, has called [turn_off] on every entity of
    [light_entities] and nothing else on any of them, has issued no
    [api.turn_on], and leaves the instance, in particular the two last-on
    and the two overwrite fields, unchanged. *)
Theorem callback_off_mirrors (vl : VirtualLight) (r : Room)
        (entity attribute : string) (old : StateValue) (a : Attributes)
        (p : Platform) :
  room vl = Some r ->
  let out :=
    callback decimal_to_octet_proportional entity attribute old (Full "off" a) p vl in
  result_of out = Return tt /\
  entity_calls (trace_of out) = map (fun e => (e, Turn_off)) (light_entities vl) /\
  api_turn_ons (trace_of out) = [] /\
  last_on_brightness (instance_of out) = last_on_brightness vl /\
  last_on_temp_kelvin (instance_of out) = last_on_temp_kelvin vl /\
  overwrite_next_on_brightness (instance_of out) = overwrite_next_on_brightness vl /\
  overwrite_next_on_temp_kelvin (instance_of out) = overwrite_next_on_temp_kelvin vl.
Proof.
  intros Hroom out. subst out.
  rewrite (callback_off decimal_to_octet_proportional vl r) by exact Hroom.
  unfold result_of, instance_of, trace_of. simpl.
  repeat split.
  - induction (light_entities vl) as [|e l IH]; simpl; [reflexivity|].
    now rewrite IH.
  - induction (light_entities vl) as [|e l IH]; simpl; [reflexivity|exact IH].
Qed.

(** C7.  After the callback has processed an event with state "on" and a
    brightness that is not [None], [last_on_brightness] is the event's
    brightness and [last_on_temp_kelvin] is the event's colour temperature
    ([None] included); an event of any other kind leaves both fields
    unchanged on any instance. *)
Theorem callback_tracks_last_on (vl : VirtualLight) (r : Room)
        (entity attribute : string) (old : StateValue) (a : Attributes) (b : Z)
        (p : Platform) (vl0 : VirtualLight) (new : StateValue) :
  room vl = Some r ->
  brightness a = Some b ->
  ~ on_with_brightness new ->
  let vl' :=
    instance_of
      (callback decimal_to_octet_proportional entity attribute old (Full "on" a) p vl) in
  let vl0' :=
    instance_of
      (callback decimal_to_octet_proportional entity attribute old new p vl0) in
  (last_on_brightness vl' = brightness a /\
   last_on_temp_kelvin vl' = color_temp_kelvin a) /\
  (last_on_brightness vl0' = last_on_brightness vl0 /\
   last_on_temp_kelvin vl0' = last_on_temp_kelvin vl0).
Proof.
  intros Hroom Hb Hother vl' vl0'. split.
  - destruct (callback_on decimal_to_octet_proportional vl r entity attribute
                old a b p Hroom Hb) as [cs [Hrun _]].
    subst vl'. rewrite Hrun. split; reflexivity.
  - subst vl0'.
    destruct (callback_instance decimal_to_octet_proportional vl0
                entity attribute old new p) as [H|[a' [b' [r' [Hnew [Hb' _]]]]]].
    + rewrite H. split; reflexivity.
    + elim Hother. now exists a', b'.
Qed.

(** C9.  For an event that is a state dictionary whose state is neither
    "on" nor "off", received once the room is attached, the callback raises
    [ValueError] with no call on any light entity, no [api.turn_on] and the
    instance unchanged; for the empty string as event the callback returns
    at once, with no effect at all, on any instance. *)
Theorem callback_invalid_state_raises (vl : VirtualLight) (r : Room)
        (entity attribute : string) (old : StateValue) (state : string)
        (a : Attributes) (p : Platform) (vl0 : VirtualLight) :
  room vl = Some r ->
  state <> "on" ->
  state <> "off" ->
  let out :=
    callback decimal_to_octet_proportional entity attribute old (Full state a) p vl in
  (result_of out = Raise ValueError /\
   trace_of out = [ApiLog (EventDetected (Full state a)) (log r)] /\
   entity_calls (trace_of out) = [] /\
   api_turn_ons (trace_of out) = [] /\
   instance_of out = vl) /\
  callback decimal_to_octet_proportional entity attribute old (Text EmptyString) p vl0
  = (Return tt, vl0, []).
Proof.
  intros Hroom Hon Hoff out. subst out.
  rewrite (callback_invalid_state decimal_to_octet_proportional vl r)
    by assumption.
  repeat split.
Qed.

End CallbackProperties.

(** * Properties of reachable instances *)

Section ReachableProperties.

Variable decimal_to_octet_proportional : Q -> Z.
Variable decimal_to_custom_range_proportional : Q -> option Z -> option Z -> Z.

(** C10.  On an instance reachable from construction with its room
    attached, an event with state "on" and brightness [None] makes the
    callback return without any call on a light entity and without touching
    the instance; its only command is one [api.turn_on] of the virtual
    entity itself, with the octet value of 0.5 as brightness and 3000 as
    colour temperature. *)
Theorem callback_on_without_brightness (vl : VirtualLight) (r : Room)
        (entity attribute : string) (old : StateValue) (a : Attributes)
        (p : Platform) :
  reachable decimal_to_octet_proportional decimal_to_custom_range_proportional vl ->
  room vl = Some r ->
  brightness a = None ->
  let out :=
    callback decimal_to_octet_proportional entity attribute old (Full "on" a) p vl in
  result_of out = Return tt /\
  entity_calls (trace_of out) = [] /\
  instance_of out = vl /\
  api_turn_ons (trace_of out)
  = [(ha_id vl,
      mkKwargs (Some (Some (decimal_to_octet_proportional (1 # 2))))
               (Some (Some 3000)) None)].
Proof.
  intros Hreach Hroom Hb out. subst out.
  rewrite (callback_on_brightness_None decimal_to_octet_proportional vl r)
    by assumption.
  rewrite (reachable_default_temp_kelvin _ _ vl Hreach).
  repeat split.
Qed.

(** C8.  On every instance reachable from construction, a
    [last_on_temp_kelvin] that is not [None] comes with a
    [last_on_brightness] that is not [None]; hence
    [turn_on_with_last_or_default_temp_kelvin] returns after one
    [api.turn_on] whose brightness is an integer, never [None]. *)
Theorem last_on_invariant (vl : VirtualLight) (p : Platform) :
  reachable decimal_to_octet_proportional decimal_to_custom_range_proportional vl ->
  (last_on_temp_kelvin vl <> None -> last_on_brightness vl <> None) /\
  exists (b : Z) (t : Z),
    turn_on_with_last_or_default_temp_kelvin p vl
    = (Return tt, vl,
       [ApiTurnOn (ha_id vl) (mkKwargs (Some (Some b)) (Some (Some t)) None)]).
Proof.
  intros Hreach.
  pose proof (reachable_last_on _ _ vl Hreach) as Hinv.
  split; [exact Hinv|].
  unfold turn_on_with_last_or_default_temp_kelvin, bind, self. simpl.
  destruct (last_on_temp_kelvin vl) as [t|] eqn:Ht; simpl.
  - destruct (last_on_brightness vl) as [b|] eqn:Hlb.
    + now exists b, t.
    + exfalso. apply Hinv; [discriminate|reflexivity].
  - destruct (last_on_brightness vl) as [b|] eqn:Hlb; simpl.
    + now exists b, (default_temp_kelvin vl).
    + now exists 255, (default_temp_kelvin vl).
Qed.

(** C5.  On an instance reachable from construction, when the platform
    reports the range [[lo, hi]] with [lo <= hi],
    [turn_on_with_temp_kelvin_delta d] returns after one [api.turn_on] that
    keeps the current brightness and whose colour temperature is [t + d]
    clamped to [[lo, hi]], where [t] is the current colour temperature,
    else [last_on_temp_kelvin], else 3000. *)
Theorem turn_on_with_temp_kelvin_delta_clamps (vl : VirtualLight) (p : Platform)
        (d lo hi : Z) :
  reachable decimal_to_octet_proportional decimal_to_custom_range_proportional vl ->
  es_min_color_temp_kelvin (p (ha_id vl)) = Some lo ->
  es_max_color_temp_kelvin (p (ha_id vl)) = Some hi ->
  lo <= hi ->
  let t :=
    match es_color_temp_kelvin (p (ha_id vl)) with
    | Some current => current
    | None =>
        match last_on_temp_kelvin vl with
        | Some last => last
        | None => 3000
        end
    end in
  exists x,
    turn_on_with_temp_kelvin_delta d p vl
    = (Return tt, vl,
       [ApiTurnOn (ha_id vl)
          (mkKwargs (Some (es_brightness (p (ha_id vl)))) (Some (Some x)) None)]) /\
    lo <= x <= hi /\
    (t + d < lo -> x = lo) /\
    (hi < t + d -> x = hi) /\
    (lo <= t + d <= hi -> x = t + d).
Proof.
  intros Hreach Hlo Hhi Hle t.
  pose proof (reachable_default_temp_kelvin _ _ vl Hreach) as Hdef.
  exists (Z.max (Z.min (t + d) hi) lo). split.
  - subst t. step_method. unfold is_None, is_not_None.
    destruct (es_color_temp_kelvin (p (ha_id vl))) as [c|]; simpl.
    + rewrite Hlo, Hhi. reflexivity.
    + destruct (last_on_temp_kelvin vl) as [l|]; simpl;
        rewrite Hlo, Hhi, ?Hdef; reflexivity.
  - repeat split; intros; lia.
Qed.

End ReachableProperties.

(** * The turn-on methods *)

(** C4.  When the platform reports the integer [b] as current brightness,
    [turn_on_with_brightness_delta d] returns after one [api.turn_on] whose
    brightness is [b + d] clamped to [[0, 255]]: 0 below the range, 255
    above it, [b + d] inside. *)
Theorem turn_on_with_brightness_delta_clamps (vl : VirtualLight) (p : Platform)
        (b d : Z) :
  es_brightness (p (ha_id vl)) = Some b ->
  exists kw x,
    turn_on_with_brightness_delta d p vl
    = (Return tt, vl, [ApiTurnOn (ha_id vl) kw]) /\
    kw_brightness kw = Some (Some x) /\
    (b + d < 0 -> x = 0) /\
    (b + d > 255 -> x = 255) /\
    (0 <= b + d <= 255 -> x = b + d).
Proof.
  intros Hb.
  set (x := if b + d <? 0 then 0 else if b + d >? 255 then 255 else b + d).
  assert (Hx : (b + d < 0 -> x = 0) /\ (b + d > 255 -> x = 255) /\
               (0 <= b + d <= 255 -> x = b + d)).
  { subst x. destruct (Z.ltb_spec (b + d) 0); [repeat split; intros; lia|].
    destruct (b + d >? 255) eqn:E.
    - apply Z.gtb_lt in E. repeat split; intros; lia.
    - assert (~ 255 < b + d) by (intros H'; apply Z.gtb_lt in H'; congruence).
      repeat split; intros; lia. }
  step_method. rewrite Hb. cbv beta iota. fold x.
  destruct (overwrite_next_on_temp_kelvin vl) as [t|]; cbv beta iota delta [is_not_None].
  - eexists; exists x. split; [reflexivity|]. split; [reflexivity|exact Hx].
  - eexists; exists x. split; [reflexivity|]. split; [reflexivity|exact Hx].
Qed.

(** C2 (amended).  When [overwrite_next_on_brightness] holds a value,
    [turn_on] returns after one [api.turn_on] that carries that brightness,
    and that also carries the value of [overwrite_next_on_temp_kelvin] when
    there is one. *)
Theorem turn_on_carries_brightness_overwrite (vl : VirtualLight) (p : Platform)
        (b : Z) :
  overwrite_next_on_brightness vl = Some b ->
  exists kw,
    turn_on p vl = (Return tt, vl, [ApiTurnOn (ha_id vl) kw]) /\
    kw_brightness kw = Some (Some b) /\
    (forall t, overwrite_next_on_temp_kelvin vl = Some t ->
               kw_color_temp_kelvin kw = Some (Some t)).
Proof.
  intros Hb. step_method. unfold is_not_None. rewrite Hb.
  destruct (overwrite_next_on_temp_kelvin vl) as [t|] eqn:Ht; simpl;
    rewrite ?Ht; simpl.
  - eexists. split; [reflexivity|]. split; [reflexivity|].
    intros t' Ht'. now injection Ht' as <-.
  - eexists. split; [reflexivity|]. split; [reflexivity|].
    intros t' Ht'. discriminate.
Qed.

(** C2, as worded, fails: with only a colour temperature stored, [turn_on]
    issues a plain [api.turn_on] that does not carry it. *)
Lemma turn_on_drops_lone_temp_kelvin_overwrite :
  ~ turn_on_carries_overwrites lit_platform light_with_temp_overwrite.
Proof.
  intros [kw [Hrun [_ Ht]]].
  specialize (Ht 2700 eq_refl).
  assert (Hkw : kw = no_kwargs).
  { vm_compute in Hrun. now injection Hrun as <-. }
  subst kw. discriminate Ht.
Qed.

Example turn_on_with_lone_temp_kelvin_overwrite :
  turn_on lit_platform light_with_temp_overwrite
  = (Return tt, light_with_temp_overwrite,
     [ApiTurnOn "light.virtual_living_room" no_kwargs]).
Proof. reflexivity. Qed.

(** * The properties at work on the worked configuration *)

Lemma light_with_both_overwrites_reachable :
  reachable sample_decimal_to_octet sample_decimal_to_custom_range
    light_with_both_overwrites.
Proof.
  exact (reachable_step _ _ light_with_temp_overwrite
           (Set_overwrite_next_on_brightness (Some 120)) lit_platform
           (reachable_step _ _ installed_light
              (Set_overwrite_next_on_temp_kelvin (Some 2700)) lit_platform
              installed_light_reachable)).
Qed.

Lemma remembering_light_reachable :
  reachable sample_decimal_to_octet sample_decimal_to_custom_range remembering_light.
Proof.
  exact (reachable_step _ _ installed_light
           (Op_callback "light.virtual_living_room" "all" (Text EmptyString)
              (Full "on" warm_full))
           lit_platform installed_light_reachable).
Qed.

Lemma callback_on_priority_cascade_witness :
  let out :=
    callback sample_decimal_to_octet "light.virtual_living_room" "all"
      (Text EmptyString) (Full "on" warm_full) lit_platform installed_light in
  result_of out = Return tt /\
  one_command_each warm_full (light_entities installed_light)
    (entity_calls (trace_of out)) /\
  api_turn_ons (trace_of out) = [].
Proof.
  apply (callback_on_priority_cascade sample_decimal_to_octet installed_light
           living_room "light.virtual_living_room" "all" (Text EmptyString) warm_full 255
           lit_platform); reflexivity.
Defined.

Lemma turn_on_carries_brightness_overwrite_witness :
  exists kw,
    turn_on lit_platform light_with_both_overwrites
    = (Return tt, light_with_both_overwrites,
       [ApiTurnOn (ha_id light_with_both_overwrites) kw]) /\
    kw_brightness kw = Some (Some 120) /\
    (forall t, overwrite_next_on_temp_kelvin light_with_both_overwrites = Some t ->
               kw_color_temp_kelvin kw = Some (Some t)).
Proof.
  apply (turn_on_carries_brightness_overwrite light_with_both_overwrites
           lit_platform 120); reflexivity.
Defined.

Lemma callback_on_clears_overwrites_witness :
  let vl' :=
    instance_of
      (callback sample_decimal_to_octet "light.virtual_living_room" "all"
         (Text EmptyString) (Full "on" red_dim) lit_platform light_with_both_overwrites) in
  let vl0' :=
    instance_of
      (callback sample_decimal_to_octet "light.virtual_living_room" "all"
         (Text EmptyString) (Full "on" warm_full) lit_platform installed_light) in
  (overwrite_next_on_brightness vl' = None /\
   overwrite_next_on_temp_kelvin vl' = None) /\
  (ha_id vl0' = ha_id installed_light /\
   room vl0' = room installed_light /\
   light_entities vl0' = light_entities installed_light /\
   default_temp_kelvin vl0' = default_temp_kelvin installed_light).
Proof.
  apply (callback_on_clears_overwrites sample_decimal_to_octet
           light_with_both_overwrites living_room "light.virtual_living_room"
           "all" (Text EmptyString) red_dim 40 lit_platform installed_light
           (Full "on" warm_full)); reflexivity.
Defined.

Lemma turn_on_with_brightness_delta_clamps_witness :
  exists kw x,
    turn_on_with_brightness_delta 100 lit_platform installed_light
    = (Return tt, installed_light, [ApiTurnOn (ha_id installed_light) kw]) /\
    kw_brightness kw = Some (Some x) /\
    (200 + 100 < 0 -> x = 0) /\
    (200 + 100 > 255 -> x = 255) /\
    (0 <= 200 + 100 <= 255 -> x = 200 + 100).
Proof.
  apply (turn_on_with_brightness_delta_clamps installed_light lit_platform 200 100);
    reflexivity.
Defined.

Lemma turn_on_with_temp_kelvin_delta_clamps_witness :
  exists x,
    turn_on_with_temp_kelvin_delta 5000 lit_platform installed_light
    = (Return tt, installed_light,
       [ApiTurnOn (ha_id installed_light)
          (mkKwargs (Some (es_brightness (lit_platform (ha_id installed_light))))
                    (Some (Some x)) None)]) /\
    2000 <= x <= 6500 /\
    (2700 + 5000 < 2000 -> x = 2000) /\
    (6500 < 2700 + 5000 -> x = 6500) /\
    (2000 <= 2700 + 5000 <= 6500 -> x = 2700 + 5000).
Proof.
  apply (turn_on_with_temp_kelvin_delta_clamps sample_decimal_to_octet
           sample_decimal_to_custom_range installed_light lit_platform
           5000 2000 6500);
    [exact installed_light_reachable | reflexivity | reflexivity | lia].
Defined.

Lemma callback_off_mirrors_witness :
  let out :=
    callback sample_decimal_to_octet "light.virtual_living_room" "all"
      (Full "on" warm_full) (Full "off" no_brightness) lit_platform
      light_with_both_overwrites in
  result_of out = Return tt /\
  entity_calls (trace_of out)
  = map (fun e => (e, Turn_off)) (light_entities light_with_both_overwrites) /\
  api_turn_ons (trace_of out) = [] /\
  last_on_brightness (instance_of out)
  = last_on_brightness light_with_both_overwrites /\
  last_on_temp_kelvin (instance_of out)
  = last_on_temp_kelvin light_with_both_overwrites /\
  overwrite_next_on_brightness (instance_of out)
  = overwrite_next_on_brightness light_with_both_overwrites /\
  overwrite_next_on_temp_kelvin (instance_of out)
  = overwrite_next_on_temp_kelvin light_with_both_overwrites.
Proof.
  apply (callback_off_mirrors sample_decimal_to_octet light_with_both_overwrites
           living_room "light.virtual_living_room" "all" (Full "on" warm_full)
           no_brightness lit_platform); reflexivity.
Defined.

Lemma callback_tracks_last_on_witness :
  let vl' :=
    instance_of
      (callback sample_decimal_to_octet "light.virtual_living_room" "all"
         (Text EmptyString) (Full "on" red_dim) lit_platform remembering_light) in
  let vl0' :=
    instance_of
      (callback sample_decimal_to_octet "light.virtual_living_room" "all"
         (Text EmptyString) (Full "on" no_brightness) lit_platform remembering_light) in
  (last_on_brightness vl' = brightness red_dim /\
   last_on_temp_kelvin vl' = color_temp_kelvin red_dim) /\
  (last_on_brightness vl0' = last_on_brightness remembering_light /\
   last_on_temp_kelvin vl0' = last_on_temp_kelvin remembering_light).
Proof.
  apply (callback_tracks_last_on sample_decimal_to_octet remembering_light
           living_room "light.virtual_living_room" "all" (Text EmptyString) red_dim 40
           lit_platform remembering_light (Full "on" no_brightness));
    [reflexivity | reflexivity |].
  intros [a [b [Hnew Hb]]]. injection Hnew as <-. discriminate Hb.
Defined.

Lemma last_on_invariant_witness :
  (last_on_temp_kelvin remembering_light <> None ->
   last_on_brightness remembering_light <> None) /\
  exists (b : Z) (t : Z),
    turn_on_with_last_or_default_temp_kelvin lit_platform remembering_light
    = (Return tt, remembering_light,
       [ApiTurnOn (ha_id remembering_light)
          (mkKwargs (Some (Some b)) (Some (Some t)) None)]).
Proof.
  apply (last_on_invariant sample_decimal_to_octet sample_decimal_to_custom_range
           remembering_light lit_platform).
  exact remembering_light_reachable.
Defined.

Lemma callback_invalid_state_raises_witness :
  let out :=
    callback sample_decimal_to_octet "light.virtual_living_room" "all"
      (Full "on" warm_full) (Full "unavailable" no_brightness) lit_platform
      remembering_light in
  (result_of out = Raise ValueError /\
   trace_of out
   = [ApiLog (EventDetected (Full "unavailable" no_brightness)) (log living_room)] /\
   entity_calls (trace_of out) = [] /\
   api_turn_ons (trace_of out) = [] /\
   instance_of out = remembering_light) /\
  callback sample_decimal_to_octet "light.virtual_living_room" "all"
    (Full "on" warm_full) (Text EmptyString) lit_platform fresh_light
  = (Return tt, fresh_light, []).
Proof.
  apply (callback_invalid_state_raises sample_decimal_to_octet remembering_light
           living_room "light.virtual_living_room" "all" (Full "on" warm_full)
           "unavailable" no_brightness lit_platform fresh_light);
    [reflexivity | discriminate | discriminate].
Defined.

Lemma callback_on_without_brightness_witness :
  let out :=
    callback sample_decimal_to_octet "light.virtual_living_room" "all"
      (Text EmptyString) (Full "on" no_brightness) lit_platform remembering_light in
  result_of out = Return tt /\
  entity_calls (trace_of out) = [] /\
  instance_of out = remembering_light /\
  api_turn_ons (trace_of out)
  = [(ha_id remembering_light,
      mkKwargs (Some (Some (sample_decimal_to_octet (1 # 2))))
               (Some (Some 3000)) None)].
Proof.
  apply (callback_on_without_brightness sample_decimal_to_octet
           sample_decimal_to_custom_range remembering_light living_room
           "light.virtual_living_room" "all" (Text EmptyString) no_brightness lit_platform);
    [exact remembering_light_reachable | reflexivity | reflexivity].
Defined.

(** * Further properties of the callback *)

Lemma api_turn_offs_call_effects (cs : list (LightEntity * Command)) :
  api_turn_offs (map call_effect cs) = [].
Proof.
  induction cs as [|[e c] cs IH]; simpl; [reflexivity|]. exact IH.
Qed.

Lemma entity_calls_turn_off (l : list LightEntity) :
  entity_calls (map (fun e => EntityCall e Turn_off) l)
  = map (fun e => (e, Turn_off)) l.
Proof.
  induction l as [|e l IH]; simpl; [reflexivity|]. now rewrite IH.
Qed.

Lemma api_turn_ons_turn_off (l : list LightEntity) :
  api_turn_ons (map (fun e => EntityCall e Turn_off) l) = [].
Proof.
  induction l as [|e l IH]; simpl; [reflexivity|]. exact IH.
Qed.

Lemma api_turn_offs_turn_off (l : list LightEntity) :
  api_turn_offs (map (fun e => EntityCall e Turn_off) l) = [].
Proof.
  induction l as [|e l IH]; simpl; [reflexivity|]. exact IH.
Qed.

Lemma one_command_each_targets (a : Attributes) (l : list LightEntity)
      (cs : list (LightEntity * Command)) :
  one_command_each a l cs ->
  Forall (fun ec => In (fst ec) l /\ priority_cascade a (fst ec) (snd ec)) cs.
Proof.
  induction 1 as [|e ec l cs [He Hc] _ IH]; constructor.
  - subst e. split; [now left|exact Hc].
  - eapply Forall_impl; [|exact IH]. intros x [Hx Hcx]. split; [now right|exact Hcx].
Qed.

(** Split on the branch the callback takes and replace the call by the
    outcome of that branch. *)
Ltac callback_cases d2o vl entity attribute old new p :=
  let r := fresh "r" in
  let Hroom := fresh "Hroom" in
  destruct (room vl) as [r|] eqn:Hroom;
  [ destruct new as [?s|?state ?a];
    [ match goal with
      | s : string |- _ =>
          destruct (String.eqb_spec s EmptyString) as [->|?Hs];
          [ rewrite ?(callback_empty d2o vl)
          | rewrite ?(callback_text d2o vl r) by assumption ]
      end
    | match goal with
      | state : string, a : Attributes |- _ =>
          destruct (String.eqb_spec state "on") as [->|?Hon];
          [ destruct (brightness a) as [?b|] eqn:?Hb;
            [ match goal with
              | Hb : brightness a = Some ?b |- _ =>
                  let cs := fresh "cs" in
                  let Hrun := fresh "Hrun" in
                  let Hcs := fresh "Hcs" in
                  destruct (callback_on d2o vl r entity attribute old a b p Hroom Hb)
                    as [cs [Hrun Hcs]];
                  rewrite ?Hrun
              end
            | rewrite ?(callback_on_brightness_None d2o vl r) by assumption ]
          | destruct (String.eqb_spec state "off") as [->|?Hoff];
            [ rewrite ?(callback_off d2o vl r) by assumption
            | rewrite ?(callback_invalid_state d2o vl r) by assumption ] ]
      end ]
  | destruct new as [?s|?state ?a];
    [ match goal with
      | s : string |- _ =>
          destruct (String.eqb_spec s EmptyString) as [->|?Hs];
          [ rewrite ?(callback_empty d2o vl)
          | rewrite ?(callback_without_room d2o vl) by (assumption || congruence) ]
      end
    | rewrite ?(callback_without_room d2o vl) by (assumption || discriminate) ] ].

Section CallbackFurther.

Variable decimal_to_octet_proportional : Q -> Z.

(** X1.  While no room is attached, as right after construction, a state
    dictionary makes the callback raise [AttributeError] before anything is
    logged, sent or assigned. *)
Theorem callback_before_room_attached (vl : VirtualLight)
        (entity attribute : string) (old : StateValue) (state : string)
        (a : Attributes) (p : Platform) :
  room vl = None ->
  callback decimal_to_octet_proportional entity attribute old (Full state a) p vl
  = (Raise AttributeError, vl, []).
Proof.
  intros Hroom. apply callback_without_room; [exact Hroom|discriminate].
Qed.

(** X2.  Whatever the event and the instance, the callback never calls
    [api.turn_off], and it calls [api.turn_on] only for a state dictionary
    with state "on" and brightness [None]. *)
Theorem callback_commands_virtual_light_only_without_brightness
        (vl : VirtualLight) (entity attribute : string) (old new : StateValue)
        (p : Platform) :
  let out := callback decimal_to_octet_proportional entity attribute old new p vl in
  api_turn_offs (trace_of out) = [] /\
  (api_turn_ons (trace_of out) = [] \/
   exists a, new = Full "on" a /\ brightness a = None).
Proof.
  cbv zeta.
  callback_cases decimal_to_octet_proportional vl entity attribute old new p;
    unfold trace_of; simpl;
    rewrite ?api_turn_offs_call_effects, ?api_turn_ons_call_effects,
      ?api_turn_offs_turn_off, ?api_turn_ons_turn_off;
    try (split; [reflexivity|left; reflexivity]).
  split; [reflexivity|]. right. now exists a.
Qed.

(** X3.  Whatever the event and the instance, every call the callback makes
    on a light entity goes to an element of [light_entities]. *)
Theorem callback_commands_own_entities (vl : VirtualLight)
        (entity attribute : string) (old new : StateValue) (p : Platform) :
  let out := callback decimal_to_octet_proportional entity attribute old new p vl in
  Forall (fun ec => In (fst ec) (light_entities vl)) (entity_calls (trace_of out)).
Proof.
  cbv zeta.
  callback_cases decimal_to_octet_proportional vl entity attribute old new p;
    unfold trace_of; simpl;
    rewrite ?entity_calls_call_effects, ?entity_calls_turn_off;
    try (now constructor).
  - eapply Forall_impl; [|exact (one_command_each_targets _ _ _ Hcs)].
    now intros ec [H _].
  - apply Forall_forall. intros ec Hin. apply in_map_iff in Hin as [e [<- He]].
    exact He.
Qed.

(** X4.  For an "on" event with a brightness, an entity that offers
    [turn_on_with_brightness] is never sent a plain [turn_on] or a
    [turn_off]: the command it gets carries the event's brightness. *)
Theorem callback_on_dimmable_gets_brightness (vl : VirtualLight) (r : Room)
        (entity attribute : string) (old : StateValue) (a : Attributes) (b : Z)
        (p : Platform) :
  room vl = Some r ->
  brightness a = Some b ->
  let out :=
    callback decimal_to_octet_proportional entity attribute old (Full "on" a) p vl in
  Forall (fun ec =>
            has_turn_on_with_brightness (fst ec) = true ->
            snd ec = Turn_on_with_brightness_and_temp_kelvin (Some b) (color_temp_kelvin a)
            \/ snd ec = Turn_on_with_brightness_and_rgb (Some b) (rgb_color a)
            \/ snd ec = Turn_on_with_brightness (Some b))
         (entity_calls (trace_of out)).
Proof.
  intros Hroom Hb out. subst out.
  destruct (callback_on decimal_to_octet_proportional vl r entity attribute
              old a b p Hroom Hb) as [cs [Hrun Hcs]].
  rewrite Hrun. unfold trace_of. simpl. rewrite entity_calls_call_effects.
  eapply Forall_impl; [|exact (one_command_each_targets _ _ _ Hcs)].
  intros [e c] [_ Hc] Hdim. simpl in *. rewrite <- Hb.
  inversion Hc; subst; auto; unfold wants_brightness in *; congruence.
Qed.

(** X5.  The overwrite values are spent by an "on" event: on the instance
    the callback leaves behind, [turn_on] is a plain [api.turn_on] and
    [turn_on_with_brightness] sends the brightness alone. *)
Theorem overwrites_spent_by_on_event (vl : VirtualLight) (r : Room)
        (entity attribute : string) (old : StateValue) (a : Attributes) (b : Z)
        (p p' : Platform) (b' : option Z) :
  room vl = Some r ->
  brightness a = Some b ->
  let vl' :=
    instance_of
      (callback decimal_to_octet_proportional entity attribute old (Full "on" a) p vl) in
  turn_on p' vl' = (Return tt, vl', [ApiTurnOn (ha_id vl) no_kwargs]) /\
  turn_on_with_brightness b' p' vl'
  = (Return tt, vl', [ApiTurnOn (ha_id vl) (mkKwargs (Some b') None None)]).
Proof.
  intros Hroom Hb vl'. subst vl'.
  destruct (callback_on decimal_to_octet_proportional vl r entity attribute
              old a b p Hroom Hb) as [cs [Hrun _]].
  rewrite Hrun. split; reflexivity.
Qed.

(** X6.  What an "on" event showed is what
    [turn_on_with_last_or_default_temp_kelvin] restores: the event's
    brightness, with the event's colour temperature, or with
    [default_temp_kelvin] when the event had none. *)
Theorem last_on_restored (vl : VirtualLight) (r : Room)
        (entity attribute : string) (old : StateValue) (a : Attributes) (b : Z)
        (p p' : Platform) :
  room vl = Some r ->
  brightness a = Some b ->
  let vl' :=
    instance_of
      (callback decimal_to_octet_proportional entity attribute old (Full "on" a) p vl) in
  let t :=
    match color_temp_kelvin a with
    | Some t => t
    | None => default_temp_kelvin vl
    end in
  turn_on_with_last_or_default_temp_kelvin p' vl'
  = (Return tt, vl',
     [ApiTurnOn (ha_id vl) (mkKwargs (Some (Some b)) (Some (Some t)) None)]).
Proof.
  intros Hroom Hb vl' t. subst vl' t.
  destruct (callback_on decimal_to_octet_proportional vl r entity attribute
              old a b p Hroom Hb) as [cs [Hrun _]].
  rewrite Hrun. unfold instance_of, after_on. simpl.
  step_method. simpl. rewrite Hb.
  destruct (color_temp_kelvin a); reflexivity.
Qed.

End CallbackFurther.

(** * Further properties of the methods *)

(** X7.  [toggle] reads the platform's state: on "on" it only calls
    [api.turn_off]; on "off" it is [turn_on], overwrite values included; on
    any other state it raises [ValueError] and sends nothing. *)
Theorem toggle_by_platform_state (vl : VirtualLight) (p : Platform) :
  toggle p vl
  = if String.eqb (es_state (p (ha_id vl))) "on" then
      (Return tt, vl, [ApiTurnOff (ha_id vl)])
    else if String.eqb (es_state (p (ha_id vl))) "off" then
      turn_on p vl
    else
      (Raise ValueError, vl, []).
Proof.
  unfold toggle, get_state, api_get_state, VirtualLightState_of_value, bind.
  destruct (String.eqb (es_state (p (ha_id vl))) "on"); simpl; [reflexivity|].
  destruct (String.eqb (es_state (p (ha_id vl))) "off"); simpl; [|reflexivity].
  destruct (turn_on p vl) as [[res vl'] t]. reflexivity.
Qed.

(** X8.  When the platform reports no brightness, as for a light that is
    off, [turn_on_with_brightness_delta] raises [TypeError] and sends
    nothing. *)
Theorem turn_on_with_brightness_delta_without_brightness (vl : VirtualLight)
        (p : Platform) (d : Z) :
  es_brightness (p (ha_id vl)) = None ->
  turn_on_with_brightness_delta d p vl = (Raise TypeError, vl, []).
Proof.
  intros Hb. step_method. rewrite Hb. reflexivity.
Qed.

(** X9.  When the platform reports no minimum or no maximum colour
    temperature, [turn_on_with_temp_kelvin_delta] raises [TypeError] and
    sends nothing. *)
Theorem turn_on_with_temp_kelvin_delta_without_range (vl : VirtualLight)
        (p : Platform) (d : Z) :
  es_min_color_temp_kelvin (p (ha_id vl)) = None \/
  es_max_color_temp_kelvin (p (ha_id vl)) = None ->
  turn_on_with_temp_kelvin_delta d p vl = (Raise TypeError, vl, []).
Proof.
  intros Hrange. step_method. unfold is_None, is_not_None.
  destruct (es_color_temp_kelvin (p (ha_id vl))) as [c|];
    [|destruct (last_on_temp_kelvin vl) as [l|]]; simpl;
    (destruct (es_max_color_temp_kelvin (p (ha_id vl))) as [hi|]; simpl;
     [|reflexivity];
     destruct (es_min_color_temp_kelvin (p (ha_id vl))) as [lo|]; simpl;
     [|reflexivity];
     destruct Hrange; discriminate).
Qed.

(** X10.  [turn_on_with_temp_kelvin_delta] does not look at the brightness
    it forwards: when the platform reports a range but no brightness, the
    [api.turn_on] it issues carries [None] as brightness. *)
Theorem turn_on_with_temp_kelvin_delta_forwards_None_brightness
        (vl : VirtualLight) (p : Platform) (d lo hi : Z) :
  es_brightness (p (ha_id vl)) = None ->
  es_min_color_temp_kelvin (p (ha_id vl)) = Some lo ->
  es_max_color_temp_kelvin (p (ha_id vl)) = Some hi ->
  exists x,
    turn_on_with_temp_kelvin_delta d p vl
    = (Return tt, vl,
       [ApiTurnOn (ha_id vl) (mkKwargs (Some None) (Some (Some x)) None)]).
Proof.
  intros Hb Hlo Hhi. step_method. unfold is_None, is_not_None.
  destruct (es_color_temp_kelvin (p (ha_id vl))) as [c|];
    [|destruct (last_on_temp_kelvin vl) as [l|]]; simpl;
    rewrite Hlo, Hhi, Hb; eexists; reflexivity.
Qed.

(** X11.  When the platform reports an inverted range, the minimum above
    the maximum, [turn_on_with_temp_kelvin_delta] sends the minimum
    whatever the delta. *)
Theorem turn_on_with_temp_kelvin_delta_inverted_range (vl : VirtualLight)
        (p : Platform) (d lo hi : Z) :
  es_min_color_temp_kelvin (p (ha_id vl)) = Some lo ->
  es_max_color_temp_kelvin (p (ha_id vl)) = Some hi ->
  hi < lo ->
  turn_on_with_temp_kelvin_delta d p vl
  = (Return tt, vl,
     [ApiTurnOn (ha_id vl)
        (mkKwargs (Some (es_brightness (p (ha_id vl)))) (Some (Some lo)) None)]).
Proof.
  intros Hlo Hhi Hinv. step_method. unfold is_None, is_not_None.
  assert (Hmax : forall x, Z.max (Z.min x hi) lo = lo) by (intros; lia).
  destruct (es_color_temp_kelvin (p (ha_id vl))) as [c|];
    [|destruct (last_on_temp_kelvin vl) as [l|]]; simpl;
    rewrite Hlo, Hhi, Hmax; reflexivity.
Qed.

Section Decimal.

Variable decimal_to_octet_proportional : Q -> Z.
Variable decimal_to_custom_range_proportional : Q -> option Z -> option Z -> Z.

(** X12.  [turn_on_with_brightness_delta_decimal] hands the helper's octet
    to [turn_on_with_brightness_delta]: whatever the helper answers, the
    brightness sent lies in [[0, 255]], and it is the current brightness
    plus the helper's answer when that sum lies in the range. *)
Theorem turn_on_with_brightness_delta_decimal_in_range (vl : VirtualLight)
        (p : Platform) (b : Z) (q : Q) :
  es_brightness (p (ha_id vl)) = Some b ->
  exists kw x,
    turn_on_with_brightness_delta_decimal decimal_to_octet_proportional q p vl
    = (Return tt, vl, [ApiTurnOn (ha_id vl) kw]) /\
    kw_brightness kw = Some (Some x) /\
    0 <= x <= 255 /\
    (0 <= b + decimal_to_octet_proportional q <= 255 ->
     x = b + decimal_to_octet_proportional q).
Proof.
  intros Hb. unfold turn_on_with_brightness_delta_decimal.
  set (d := decimal_to_octet_proportional q).
  set (x := if b + d <? 0 then 0 else if b + d >? 255 then 255 else b + d).
  assert (Hx : 0 <= x <= 255 /\ (0 <= b + d <= 255 -> x = b + d)).
  { subst x. destruct (Z.ltb_spec (b + d) 0); [split; intros; lia|].
    destruct (b + d >? 255) eqn:E.
    - apply Z.gtb_lt in E. split; intros; lia.
    - assert (~ 255 < b + d) by (intros H'; apply Z.gtb_lt in H'; congruence).
      split; intros; lia. }
  step_method. rewrite Hb. cbv beta iota. fold x.
  destruct (overwrite_next_on_temp_kelvin vl) as [t|];
    cbv beta iota delta [is_not_None];
    (eexists; exists x; split; [reflexivity|]; split; [reflexivity|exact Hx]).
Qed.

(** X13.  [turn_on_with_temp_kelvin_delta_decimal] asks the helper for a
    delta over the range the platform reports and applies it: whatever the
    helper answers, the colour temperature sent lies in that range. *)
Theorem turn_on_with_temp_kelvin_delta_decimal_in_range (vl : VirtualLight)
        (p : Platform) (q : Q) (lo hi : Z) :
  es_min_color_temp_kelvin (p (ha_id vl)) = Some lo ->
  es_max_color_temp_kelvin (p (ha_id vl)) = Some hi ->
  lo <= hi ->
  let d := decimal_to_custom_range_proportional q (Some lo) (Some hi) in
  exists x,
    turn_on_with_temp_kelvin_delta_decimal decimal_to_custom_range_proportional q p vl
    = turn_on_with_temp_kelvin_delta d p vl /\
    turn_on_with_temp_kelvin_delta d p vl
    = (Return tt, vl,
       [ApiTurnOn (ha_id vl)
          (mkKwargs (Some (es_brightness (p (ha_id vl)))) (Some (Some x)) None)]) /\
    lo <= x <= hi.
Proof.
  intros Hlo Hhi Hle d.
  assert (Hrun : forall t,
             exists x, Z.max (Z.min (t + d) hi) lo = x /\ lo <= x <= hi).
  { intros t. eexists; split; [reflexivity|lia]. }
  assert (Hdec :
    turn_on_with_temp_kelvin_delta_decimal decimal_to_custom_range_proportional q p vl
    = turn_on_with_temp_kelvin_delta d p vl).
  { unfold turn_on_with_temp_kelvin_delta_decimal, get_min_temp_kelvin,
      get_max_temp_kelvin, api_get_state, bind, ret. simpl.
    rewrite Hlo, Hhi. fold d.
    destruct (turn_on_with_temp_kelvin_delta d p vl) as [[res vl'] t].
    reflexivity. }
  destruct (es_color_temp_kelvin (p (ha_id vl))) as [c|] eqn:Hc;
    [|destruct (last_on_temp_kelvin vl) as [l|] eqn:Hl].
  - destruct (Hrun c) as [x [Hx Hbound]]. exists x.
    split; [exact Hdec|]. split; [|exact Hbound].
    step_method. unfold is_None, is_not_None. rewrite Hc. simpl.
    rewrite Hlo, Hhi, Hx. reflexivity.
  - destruct (Hrun l) as [x [Hx Hbound]]. exists x.
    split; [exact Hdec|]. split; [|exact Hbound].
    step_method. unfold is_None, is_not_None. rewrite Hc, Hl. simpl.
    rewrite Hlo, Hhi, Hx. reflexivity.
  - destruct (Hrun (default_temp_kelvin vl)) as [x [Hx Hbound]]. exists x.
    split; [exact Hdec|]. split; [|exact Hbound].
    step_method. unfold is_None, is_not_None. rewrite Hc, Hl. simpl.
    rewrite Hlo, Hhi, Hx. reflexivity.
Qed.

End Decimal.

(** * Properties of every operation *)

Section Operations.

Variable decimal_to_octet_proportional : Q -> Z.
Variable decimal_to_custom_range_proportional : Q -> option Z -> option Z -> Z.

(** X14.  Whatever the operation, the platform's answers and the instance,
    at most one [api.turn_on] is issued; it names the light's own [ha_id]
    and its keywords hold a colour temperature or a colour only next to a
    brightness keyword, and never both. *)
Theorem run_api_turn_on_keywords (op : Operation) (p : Platform) (vl : VirtualLight) :
  let sent :=
    api_turn_ons
      (trace_of
         (run decimal_to_octet_proportional decimal_to_custom_range_proportional
            op p vl)) in
  (List.length sent <= 1)%nat /\
  Forall (fun hk => fst hk = ha_id vl /\ kwargs_ok (snd hk) = true) sent.
Proof.
  destruct op as [ | | | | | | | ob | ot | | b | b t | b rgb | | | | | d | q | d | q
                  | entity attribute old new | r ];
    cbv zeta; unfold run;
    try (step_method; split_cases; simpl; (split; [lia|repeat constructor])).
  callback_cases decimal_to_octet_proportional vl entity attribute old new p;
    unfold trace_of; simpl;
    rewrite ?api_turn_ons_call_effects, ?api_turn_ons_turn_off;
    simpl; (split; [lia|repeat constructor]).
Qed.

(** X15.  An operation other than the two setters, the callback and the
    attachment of the room leaves the instance exactly as it was, whether it
    returns or raises: no getter or command method spends an overwrite value
    or touches a last-on value. *)
Theorem run_without_assignment (op : Operation) (p : Platform) (vl : VirtualLight) :
  assigns op = false ->
  instance_of
    (run decimal_to_octet_proportional decimal_to_custom_range_proportional op p vl)
  = vl.
Proof.
  destruct op; simpl; intros Hop; try discriminate Hop;
    step_method; split_cases; reflexivity.
Qed.

(** X16.  No operation changes [ha_id], [light_entities] or
    [default_temp_kelvin]; and [last_on_brightness], once it holds a value,
    holds a value after every operation. *)
Theorem run_keeps_configuration (op : Operation) (p : Platform) (vl : VirtualLight) :
  let vl' :=
    instance_of
      (run decimal_to_octet_proportional decimal_to_custom_range_proportional
         op p vl) in
  ha_id vl' = ha_id vl /\
  light_entities vl' = light_entities vl /\
  default_temp_kelvin vl' = default_temp_kelvin vl /\
  (is_not_None (last_on_brightness vl) = true ->
   is_not_None (last_on_brightness vl') = true).
Proof.
  cbv zeta.
  destruct (run_instance decimal_to_octet_proportional
              decimal_to_custom_range_proportional op p vl)
    as [H|[[b H]|[[t H]|[[r H]|[a [b [Hb H]]]]]]]; rewrite H;
    repeat split; try (intros Hl; exact Hl).
  intros _. simpl. rewrite Hb. reflexivity.
Qed.

(** X17.  On an instance reachable from construction,
    [turn_on_with_max_illumination] sends brightness 255 and colour
    temperature 3000, whatever overwrite values are stored and whatever the
    platform reports. *)
Theorem turn_on_with_max_illumination_fixed (vl : VirtualLight) (p : Platform) :
  reachable decimal_to_octet_proportional decimal_to_custom_range_proportional vl ->
  turn_on_with_max_illumination p vl
  = (Return tt, vl,
     [ApiTurnOn (ha_id vl) (mkKwargs (Some (Some 255)) (Some (Some 3000)) None)]).
Proof.
  intros Hreach. step_method.
  now rewrite (reachable_default_temp_kelvin _ _ vl Hreach).
Qed.

(** X19.  On an instance reachable from construction that has not yet seen
    an "on" event with a brightness, [turn_on_with_last_or_default_temp_kelvin]
    sends full brightness 255 at colour temperature 3000. *)
Theorem last_or_default_before_first_on (vl : VirtualLight) (p : Platform) :
  reachable decimal_to_octet_proportional decimal_to_custom_range_proportional vl ->
  last_on_brightness vl = None ->
  turn_on_with_last_or_default_temp_kelvin p vl
  = (Return tt, vl,
     [ApiTurnOn (ha_id vl) (mkKwargs (Some (Some 255)) (Some (Some 3000)) None)]).
Proof.
  intros Hreach Hnone.
  pose proof (reachable_last_on _ _ vl Hreach) as Hinv.
  pose proof (reachable_default_temp_kelvin _ _ vl Hreach) as Hdef.
  step_method. unfold is_not_None.
  destruct (last_on_temp_kelvin vl) as [t|] eqn:Ht.
  - exfalso. apply Hinv; [discriminate|exact Hnone].
  - rewrite Hnone, Hdef. reflexivity.
Qed.

End Operations.

(** X18.  Storing a brightness and a colour temperature for the next
    turn-on, in either order, makes the following [turn_on] send exactly
    these two values; the stored values stay in place. *)
Theorem setters_then_turn_on (vl : VirtualLight) (p : Platform) (b t : Z) :
  let stored :=
    with_overwrite_next_on_temp_kelvin (Some t)
      (with_overwrite_next_on_brightness (Some b) vl) in
  let sent :=
    [ApiTurnOn (ha_id vl) (mkKwargs (Some (Some b)) (Some (Some t)) None)] in
  (set_overwrite_next_on_brightness (Some b) ;;
   set_overwrite_next_on_temp_kelvin (Some t) ;;
   turn_on) p vl
  = (Return tt, stored, sent) /\
  (set_overwrite_next_on_temp_kelvin (Some t) ;;
   set_overwrite_next_on_brightness (Some b) ;;
   turn_on) p vl
  = (Return tt, stored, sent).
Proof.
  split; reflexivity.
Qed.

(** * The further properties at work on the worked configuration *)

Lemma callback_before_room_attached_witness :
  callback sample_decimal_to_octet "light.virtual_living_room" "all"
    (Full "off" no_brightness) (Full "on" warm_full) lit_platform fresh_light
  = (Raise AttributeError, fresh_light, []).
Proof.
  apply (callback_before_room_attached sample_decimal_to_octet fresh_light
           "light.virtual_living_room" "all" (Full "off" no_brightness) "on"
           warm_full lit_platform); reflexivity.
Defined.

Lemma callback_on_dimmable_gets_brightness_witness :
  let out :=
    callback sample_decimal_to_octet "light.virtual_living_room" "all"
      (Full "off" no_brightness) (Full "on" red_dim) lit_platform installed_light in
  Forall (fun ec =>
            has_turn_on_with_brightness (fst ec) = true ->
            snd ec = Turn_on_with_brightness_and_temp_kelvin (Some 40)
                       (color_temp_kelvin red_dim)
            \/ snd ec = Turn_on_with_brightness_and_rgb (Some 40) (rgb_color red_dim)
            \/ snd ec = Turn_on_with_brightness (Some 40))
         (entity_calls (trace_of out)).
Proof.
  apply (callback_on_dimmable_gets_brightness sample_decimal_to_octet
           installed_light living_room "light.virtual_living_room" "all"
           (Full "off" no_brightness) red_dim 40 lit_platform); reflexivity.
Defined.

Lemma overwrites_spent_by_on_event_witness :
  let vl' :=
    instance_of
      (callback sample_decimal_to_octet "light.virtual_living_room" "all"
         (Full "off" no_brightness) (Full "on" red_dim) lit_platform
         light_with_both_overwrites) in
  turn_on unlit_platform vl'
  = (Return tt, vl', [ApiTurnOn (ha_id light_with_both_overwrites) no_kwargs]) /\
  turn_on_with_brightness (Some 77) unlit_platform vl'
  = (Return tt, vl',
     [ApiTurnOn (ha_id light_with_both_overwrites)
        (mkKwargs (Some (Some 77)) None None)]).
Proof.
  apply (overwrites_spent_by_on_event sample_decimal_to_octet
           light_with_both_overwrites living_room "light.virtual_living_room"
           "all" (Full "off" no_brightness) red_dim 40 lit_platform
           unlit_platform (Some 77)); reflexivity.
Defined.

Lemma last_on_restored_witness :
  let vl' :=
    instance_of
      (callback sample_decimal_to_octet "light.virtual_living_room" "all"
         (Full "off" no_brightness) (Full "on" red_dim) lit_platform
         installed_light) in
  let t :=
    match color_temp_kelvin red_dim with
    | Some t => t
    | None => default_temp_kelvin installed_light
    end in
  turn_on_with_last_or_default_temp_kelvin unlit_platform vl'
  = (Return tt, vl',
     [ApiTurnOn (ha_id installed_light)
        (mkKwargs (Some (Some 40)) (Some (Some t)) None)]).
Proof.
  apply (last_on_restored sample_decimal_to_octet installed_light living_room
           "light.virtual_living_room" "all" (Full "off" no_brightness) red_dim 40
           lit_platform unlit_platform); reflexivity.
Defined.

Lemma turn_on_with_brightness_delta_without_brightness_witness :
  turn_on_with_brightness_delta 25 unlit_platform installed_light
  = (Raise TypeError, installed_light, []).
Proof.
  apply (turn_on_with_brightness_delta_without_brightness installed_light
           unlit_platform 25); reflexivity.
Defined.

Lemma turn_on_with_temp_kelvin_delta_without_range_witness :
  turn_on_with_temp_kelvin_delta 300 rangeless_platform installed_light
  = (Raise TypeError, installed_light, []).
Proof.
  apply (turn_on_with_temp_kelvin_delta_without_range installed_light
           rangeless_platform 300); left; reflexivity.
Defined.

Lemma turn_on_with_temp_kelvin_delta_forwards_None_brightness_witness :
  exists x,
    turn_on_with_temp_kelvin_delta 300 unlit_platform installed_light
    = (Return tt, installed_light,
       [ApiTurnOn (ha_id installed_light)
          (mkKwargs (Some None) (Some (Some x)) None)]).
Proof.
  apply (turn_on_with_temp_kelvin_delta_forwards_None_brightness installed_light
           unlit_platform 300 2000 6500); reflexivity.
Defined.

Lemma turn_on_with_temp_kelvin_delta_inverted_range_witness :
  turn_on_with_temp_kelvin_delta 300 inverted_platform installed_light
  = (Return tt, installed_light,
     [ApiTurnOn (ha_id installed_light)
        (mkKwargs (Some (es_brightness (inverted_platform (ha_id installed_light))))
                  (Some (Some 6500)) None)]).
Proof.
  apply (turn_on_with_temp_kelvin_delta_inverted_range installed_light
           inverted_platform 300 6500 2000); [reflexivity | reflexivity | lia].
Defined.

Lemma turn_on_with_brightness_delta_decimal_in_range_witness :
  exists kw x,
    turn_on_with_brightness_delta_decimal sample_decimal_to_octet (1 # 2)
      lit_platform installed_light
    = (Return tt, installed_light, [ApiTurnOn (ha_id installed_light) kw]) /\
    kw_brightness kw = Some (Some x) /\
    0 <= x <= 255 /\
    (0 <= 200 + sample_decimal_to_octet (1 # 2) <= 255 ->
     x = 200 + sample_decimal_to_octet (1 # 2)).
Proof.
  apply (turn_on_with_brightness_delta_decimal_in_range sample_decimal_to_octet
           installed_light lit_platform 200 (1 # 2)); reflexivity.
Defined.

Lemma turn_on_with_temp_kelvin_delta_decimal_in_range_witness :
  let d := sample_decimal_to_custom_range (1 # 2) (Some 2000) (Some 6500) in
  exists x,
    turn_on_with_temp_kelvin_delta_decimal sample_decimal_to_custom_range (1 # 2)
      lit_platform installed_light
    = turn_on_with_temp_kelvin_delta d lit_platform installed_light /\
    turn_on_with_temp_kelvin_delta d lit_platform installed_light
    = (Return tt, installed_light,
       [ApiTurnOn (ha_id installed_light)
          (mkKwargs (Some (es_brightness (lit_platform (ha_id installed_light))))
                    (Some (Some x)) None)]) /\
    2000 <= x <= 6500.
Proof.
  apply (turn_on_with_temp_kelvin_delta_decimal_in_range
           sample_decimal_to_custom_range installed_light lit_platform (1 # 2)
           2000 6500); [reflexivity | reflexivity | lia].
Defined.

Lemma run_without_assignment_witness :
  instance_of
    (run sample_decimal_to_octet sample_decimal_to_custom_range Op_toggle
       unlit_platform light_with_both_overwrites)
  = light_with_both_overwrites.
Proof.
  apply (run_without_assignment sample_decimal_to_octet
           sample_decimal_to_custom_range Op_toggle unlit_platform
           light_with_both_overwrites); reflexivity.
Defined.

Lemma turn_on_with_max_illumination_fixed_witness :
  turn_on_with_max_illumination unlit_platform light_with_both_overwrites
  = (Return tt, light_with_both_overwrites,
     [ApiTurnOn (ha_id light_with_both_overwrites)
        (mkKwargs (Some (Some 255)) (Some (Some 3000)) None)]).
Proof.
  apply (turn_on_with_max_illumination_fixed sample_decimal_to_octet
           sample_decimal_to_custom_range light_with_both_overwrites
           unlit_platform).
  exact light_with_both_overwrites_reachable.
Defined.

Lemma last_or_default_before_first_on_witness :
  turn_on_with_last_or_default_temp_kelvin unlit_platform light_with_both_overwrites
  = (Return tt, light_with_both_overwrites,
     [ApiTurnOn (ha_id light_with_both_overwrites)
        (mkKwargs (Some (Some 255)) (Some (Some 3000)) None)]).
Proof.
  apply (last_or_default_before_first_on sample_decimal_to_octet
           sample_decimal_to_custom_range light_with_both_overwrites
           unlit_platform); [exact light_with_both_overwrites_reachable|reflexivity].
Defined.
